(** * Document-validator: extraction and rule validation

    A shallow embedding of the Python sources

      - [models.py]        the pydantic models and their field validators,
      - [validation.py]    the four business rules of [DocumentValidator],
      - [ai_extractor.py]  [AIExtractor.extract_fields],
      - [main.py]          [lifespan] and the [/validate] route,

    followed by the theorems about them.

    Conventions.  A Python [str] is a [string] whose characters are code
    points below 256 (Latin-1); an exception is a value of [exn]; code
    that may raise returns [result A]; code that also talks to the AI
    provider or to the rule validator runs in [IO], which records those
    calls.  A Python [float] is a [spec_float] (binary64).

    Library code the sources call is modelled where the statements
    depend on what it computes: [datetime.strptime] for the one format
    the program uses, the comparison of datetimes, [str.strip] and
    [str.lower], pydantic's validation of a field against its type.
    What the statements do not depend on is a parameter: the text of a
    float, the conversion of a string to a float and [json.loads] are
    the fields of [Runtime], and the AI provider is a field of
    [AIExtractor]. *)

From Stdlib Require Import ZArith NArith Lia Ascii Bool.
From Stdlib Require String.
From Stdlib Require Import Floats.SpecFloat.
From stdpp Require Import base option list strings pretty gmap.

Local Open Scope Z_scope.

(* ===================================================================== *)
(** * Exceptions and the error monad *)
(* ===================================================================== *)

(** The exception classes the program distinguishes.  [JSONDecodeError]
    and pydantic's [ValidationError] are subclasses of [ValueError];
    [HTTPException] carries its status code. *)
Inductive exn_class :=
  | ValueError
  | JSONDecodeError
  | ValidationError
  | TypeError
  | AttributeError
  | HTTPException (status_code : Z)
  | OtherException.

(** An exception object: its class and [str(e)]. *)
Record exn := Exn { exn_cls : exn_class; exn_str : string }.

(** [isinstance(e, ValueError)], as tested by [except ValueError]. *)
Definition is_ValueError (e : exn) : bool :=
  match exn_cls e with
  | ValueError | JSONDecodeError | ValidationError => true
  | _ => false
  end.

(** [isinstance(e, json.JSONDecodeError)]. *)
Definition is_JSONDecodeError (e : exn) : bool :=
  match exn_cls e with
  | JSONDecodeError => true
  | _ => false
  end.

Inductive result (A : Type) :=
  | Ok (a : A)
  | Raise (e : exn).
Arguments Ok {A} a.
Arguments Raise {A} e.

#[global] Instance result_ret : MRet result := fun A a => Ok a.

#[global] Instance result_bind : MBind result := fun A B k m =>
  match m with
  | Ok a => k a
  | Raise e => Raise e
  end.

(** [try: body  except Exception as e: handler e]; a handler that
    matches on the class of [e] models a chain of [except] clauses. *)
Definition try_except {A} (body : result A) (handler : exn -> result A)
  : result A :=
  match body with
  | Ok a => Ok a
  | Raise e => handler e
  end.

Definition raise {A} (c : exn_class) (msg : string) : result A :=
  Raise (Exn c msg).

(* ===================================================================== *)
(** * Python string primitives *)
(* ===================================================================== *)

Module Str.

Definition ord (c : ascii) : N := N_of_ascii c.

(** [c.isspace()] for a code point below 256: TAB..CR, FS..US, SPACE,
    NEL and NBSP. *)
Definition isspace (c : ascii) : bool :=
  let n := ord c in
  (((9 <=? n) && (n <=? 13)) || ((28 <=? n) && (n <=? 32))
   || (n =? 133) || (n =? 160))%N.

(** [c.lower()] for a code point below 256: [A-Z] and the upper-case
    Latin-1 letters (all of U+00C0..U+00DE but the sign U+00D7) move
    up by 32. *)
Definition lower_char (c : ascii) : ascii :=
  let n := ord c in
  if (((65 <=? n) && (n <=? 90))
      || ((192 <=? n) && (n <=? 222) && negb (n =? 215)))%N
  then ascii_of_N (n + 32) else c.

(** [s.lower()] *)
Fixpoint lower (s : string) : string :=
  match s with
  | EmptyString => EmptyString
  | String c s' => String (lower_char c) (lower s')
  end.

Fixpoint lstrip (s : string) : string :=
  match s with
  | EmptyString => EmptyString
  | String c s' => if isspace c then lstrip s' else s
  end.

Fixpoint rstrip (s : string) : string :=
  match s with
  | EmptyString => EmptyString
  | String c s' =>
      match rstrip s' with
      | EmptyString => if isspace c then EmptyString else String c EmptyString
      | r => String c r
      end
  end.

(** [s.strip()] *)
Definition strip (s : string) : string := rstrip (lstrip s).

(** Truthiness of a [str]: [bool(s)]. *)
Definition truthy (s : string) : bool :=
  match s with
  | EmptyString => false
  | String _ _ => true
  end.

(** [len(s)] *)
Definition len (s : string) : Z := Z.of_nat (String.length s).

Definition is_digit (c : ascii) : bool :=
  let n := ord c in ((48 <=? n) && (n <=? 57))%N.

Definition in_range (lo hi : ascii) (c : ascii) : bool :=
  ((ord lo <=? ord c) && (ord c <=? ord hi))%N.

Definition is_char (x : ascii) (c : ascii) : bool := (ord x =? ord c)%N.

Fixpoint int_digits (acc : Z) (s : string) : Z :=
  match s with
  | EmptyString => acc
  | String c s' => int_digits (10 * acc + (Z.of_N (ord c) - 48)) s'
  end.

(** [int(s)] on the text of a regex group of [strptime]: surrounding
    white space is dropped, the rest are decimal digits. *)
Definition int (s : string) : Z := int_digits 0 (strip s).

(** The double quote character, and a text between double quotes. *)
Definition dq : string := String "034"%char EmptyString.

(** [c.isprintable()] for a code point below 256: everything but the
    C0 and C1 controls, DEL, NBSP and the soft hyphen. *)
Definition isprintable (c : ascii) : bool :=
  let n := ord c in
  (((32 <=? n) && (n <=? 126)) || ((161 <=? n) && negb (n =? 173)))%N.

(** [''.join(char for char in s if keep(char))] *)
Fixpoint join_if (keep : ascii -> bool) (s : string) : string :=
  match s with
  | EmptyString => EmptyString
  | String c s' => if keep c then String c (join_if keep s') else join_if keep s'
  end.

(** The first [n] characters of [s] (all of it when it is shorter). *)
Fixpoint take (n : nat) (s : string) : string :=
  match n, s with
  | O, _ => EmptyString
  | S _, EmptyString => EmptyString
  | S n', String c s' => String c (take n' s')
  end.

(** [s[:stop]]: a negative [stop] counts from the end of [s]. *)
Definition slice_to (stop : Z) (s : string) : string :=
  if stop <? 0 then take (Z.to_nat (len s + stop)) s
  else take (Z.to_nat stop) s.

End Str.

(* ===================================================================== *)
(** * [datetime.strptime(s, "%Y-%m-%d")] *)
(* ===================================================================== *)

Module Datetime.

(** The value [strptime] builds for a format without time directives:
    hour, minute, second and microsecond are 0 and are left out. *)
Record datetime := mkdatetime { year : Z; month : Z; day : Z }.

(** A character class of the format's regular expression. *)
Definition cclass := ascii -> bool.

(** Match a fixed sequence of character classes at the head of [s]:
    the matched text and the rest. *)
Fixpoint match_seq (cs : list cclass) (s : string) : option (string * string) :=
  match cs with
  | [] => Some (EmptyString, s)
  | p :: cs' =>
      match s with
      | String c s' =>
          if p c then
            match match_seq cs' s' with
            | Some (m, r) => Some (String c m, r)
            | None => None
            end
          else None
      | EmptyString => None
      end
  end.

(** An ordered alternation [a1|a2|...] followed by the rest of the
    pattern [k]: the first alternative whose continuation succeeds wins
    (backtracking). *)
Fixpoint match_group {R} (alts : list (list cclass)) (s : string)
    (k : string -> string -> option R) : option R :=
  match alts with
  | [] => None
  | a :: alts' =>
      match match_seq a s with
      | Some (m, r) =>
          match k m r with
          | Some x => Some x
          | None => match_group alts' s k
          end
      | None => match_group alts' s k
      end
  end.

Definition match_lit {R} (x : ascii) (s : string) (k : string -> option R)
  : option R :=
  match s with
  | String c s' => if Str.is_char x c then k s' else None
  | EmptyString => None
  end.

(** [%Y] is [(?P<Y>\d\d\d\d)] *)
Definition re_Y : list (list cclass) :=
  [[Str.is_digit; Str.is_digit; Str.is_digit; Str.is_digit]].

(** [%m] is [(?P<m>1[0-2]|0[1-9]|[1-9])] *)
Definition re_m : list (list cclass) :=
  [[Str.is_char "1"; Str.in_range "0" "2"];
   [Str.is_char "0"; Str.in_range "1" "9"];
   [Str.in_range "1" "9"]].

(** [%d] is [(?P<d>3[0-1]|[1-2]\d|0[1-9]|[1-9]| [1-9])] *)
Definition re_d : list (list cclass) :=
  [[Str.is_char "3"; Str.in_range "0" "1"];
   [Str.in_range "1" "2"; Str.is_digit];
   [Str.is_char "0"; Str.in_range "1" "9"];
   [Str.in_range "1" "9"];
   [Str.is_char " "; Str.in_range "1" "9"]].

(** [format_regex.match(data_string)] for the format [%Y-%m-%d]: the
    three groups and what is left after the match. *)
Definition format_regex_match (data_string : string)
  : option (string * string * string * string) :=
  match_group re_Y data_string (fun Y s1 =>
  match_lit "-" s1 (fun s2 =>
  match_group re_m s2 (fun m s3 =>
  match_lit "-" s3 (fun s4 =>
  match_group re_d s4 (fun d rest => Some (Y, m, d, rest)))))).

Definition is_leap (y : Z) : bool :=
  (y mod 4 =? 0) && (negb (y mod 100 =? 0) || (y mod 400 =? 0)).

Definition days_in_month (y m : Z) : Z :=
  if (m =? 2) && is_leap y then 29
  else if m =? 2 then 28
  else if (m =? 4) || (m =? 6) || (m =? 9) || (m =? 11) then 30
  else 31.

(** [datetime.date(year, month, day)]: the range checks of the
    constructor. *)
Definition date_new (y m d : Z) : result datetime :=
  if negb ((1 <=? y) && (y <=? 9999)) then
    raise ValueError ("year " +:+ pretty y +:+ " is out of range")
  else if negb ((1 <=? m) && (m <=? 12)) then
    raise ValueError "month must be in 1..12"
  else if negb ((1 <=? d) && (d <=? days_in_month y m)) then
    raise ValueError "day is out of range for month"
  else Ok (mkdatetime y m d).

Definition FORMAT : string := "%Y-%m-%d".

(** [datetime.strptime(data_string, "%Y-%m-%d")] *)
Definition strptime (data_string : string) : result datetime :=
  match format_regex_match data_string with
  | None =>
      raise ValueError
        ("time data '" +:+ data_string +:+ "' does not match format '"
         +:+ FORMAT +:+ "'")
  | Some (Y, m, d, rest) =>
      if Str.truthy rest then
        raise ValueError ("unconverted data remains: " +:+ rest)
      else date_new (Str.int Y) (Str.int m) (Str.int d)
  end.

(** A date of the calendar: what [datetime.date] accepts. *)
Definition calendar_date (d : datetime) : Prop :=
  1 <= year d <= 9999
  /\ 1 <= month d <= 12
  /\ 1 <= day d <= days_in_month (year d) (month d).

(** [_days_before_year]: the days before January 1st of [year]. *)
Definition days_before_year (year : Z) : Z :=
  let y := year - 1 in y * 365 + y / 4 - y / 100 + y / 400.

(** The table [_DAYS_BEFORE_MONTH]. *)
Definition DAYS_BEFORE_MONTH (m : Z) : Z :=
  if m =? 1 then 0 else if m =? 2 then 31 else if m =? 3 then 59
  else if m =? 4 then 90 else if m =? 5 then 120 else if m =? 6 then 151
  else if m =? 7 then 181 else if m =? 8 then 212 else if m =? 9 then 243
  else if m =? 10 then 273 else if m =? 11 then 304 else 334.

(** [_days_before_month]: the days of the year before the first day of
    the month. *)
Definition days_before_month (y m : Z) : Z :=
  DAYS_BEFORE_MONTH m + (if (2 <? m) && is_leap y then 1 else 0).

(** [d.toordinal()]: the number of the day, 0001-01-01 being day 1. *)
Definition toordinal (d : datetime) : Z :=
  days_before_year (year d) + days_before_month (year d) (month d) + day d.

(** The character of a decimal digit. *)
Definition digit_char (n : Z) : ascii := ascii_of_N (Z.to_N (48 + n)).

Definition zero_pad2 (n : Z) : string :=
  String (digit_char (n / 10)) (String (digit_char (n mod 10)) EmptyString).

Definition zero_pad4 (n : Z) : string :=
  String (digit_char (n / 1000))
    (String (digit_char (n / 100 mod 10))
       (String (digit_char (n / 10 mod 10))
          (String (digit_char (n mod 10)) EmptyString))).

(** [d.date().isoformat()]: the date written as [YYYY-MM-DD]. *)
Definition isoformat (d : datetime) : string :=
  zero_pad4 (year d) +:+ "-" +:+ zero_pad2 (month d)
  +:+ "-" +:+ zero_pad2 (day d).

(** [a < b] on datetimes: the fields compared in order. *)
Definition lt (a b : datetime) : Prop :=
  year a < year b
  \/ (year a = year b /\ (month a < month b
                          \/ (month a = month b /\ day a < day b))).

Definition ltb (a b : datetime) : bool :=
  (year a <? year b)
  || ((year a =? year b)
      && ((month a <? month b)
          || ((month a =? month b) && (day a <? day b)))).

(** [a > b] *)
Definition gtb (a b : datetime) : bool := ltb b a.

End Datetime.

(* ===================================================================== *)
(** * Parsed JSON and the library functions taken as given *)
(* ===================================================================== *)

(** A Python [float]: IEEE 754 binary64. *)
Definition float : Set := spec_float.

Set Warnings "-register-all".

(** What [json.loads] returns: [None], [bool], [int], [float], [str],
    [list], or a [dict] given by its items (keys distinct). *)
Inductive pyval :=
  | PNone
  | PBool (b : bool)
  | PInt (n : Z)
  | PFloat (f : float)
  | PStr (s : string)
  | PList (l : list pyval)
  | PDict (items : list (string * pyval)).

(** [d.get(key)] on the items of a dict. *)
Fixpoint dict_get (key : string) (items : list (string * pyval))
  : option pyval :=
  match items with
  | [] => None
  | (k, v) :: items' => if String.eqb k key then Some v else dict_get key items'
  end.

(** Library functions whose code is outside the repository. *)
Class Runtime := {
  (** [str(x)] of a float, as an f-string formats it *)
  float_str : float -> string;
  (** pydantic's lax conversion of a numeric [str] to [float] *)
  str_as_float : string -> option float;
  (** [json.loads]: the parsed value, or the exception it raises *)
  json_loads : string -> result pyval;
}.

(** [float(n)] of an [int]: rounded to nearest even, [OverflowError]
    (here [None]) when the magnitude exceeds the binary64 range. *)
Definition float_of_int (n : Z) : option float :=
  match binary_normalize 53 1024 n 0 false with
  | S754_infinity _ => None
  | f => Some f
  end.

Definition float_of_bool (b : bool) : float :=
  if b then S754_finite false 4503599627370496 (-52) else S754_zero false.

(** [math.isfinite] *)
Definition isfinite (f : float) : bool :=
  match f with
  | S754_zero _ | S754_finite _ _ _ => true
  | S754_infinity _ | S754_nan => false
  end.

(** [x > 0] for a float [x] *)
Definition float_gt0 (x : float) : bool := SFltb (S754_zero false) x.

(* ===================================================================== *)
(** * models.py *)
(* ===================================================================== *)

Record ExtractedData := mkExtractedData {
  policy_number : option string;
  vessel_name : option string;
  policy_start_date : option string;
  policy_end_date : option string;
  insured_value : option float;
}.

Record ValidationResult := mkValidationResult {
  rule : string;
  status : string;
  message : string;
}.

Record ValidationResponse := mkValidationResponse {
  extracted_data : ExtractedData;
  validation_results : list ValidationResult;
}.

Record DocumentRequest := mkDocumentRequest { text : string }.

(** Truthiness of an [Optional[str]]: [None] and the empty string are
    falsy. *)
Definition opt_truthy (v : option string) : bool :=
  match v with
  | None => false
  | Some s => Str.truthy s
  end.

(** An [Optional[str]] inside an f-string. *)
Definition opt_format (v : option string) : string :=
  match v with
  | None => "None"
  | Some s => s
  end.

(** [ValidationResult(rule=..., status=..., message=...)]: the field
    [status] carries [pattern="^(PASS|FAIL)$"]. *)
Definition ValidationResult_init (rule status message : string)
  : result ValidationResult :=
  if String.eqb status "PASS" || String.eqb status "FAIL" then
    Ok (mkValidationResult rule status message)
  else
    raise ValidationError
      ("1 validation error for ValidationResult: status: "
       +:+ "String should match pattern '^(PASS|FAIL)$'").

(** [DocumentRequest(text=...)]: the field [text] carries [min_length=1]. *)
Definition DocumentRequest_init (text : string) : result DocumentRequest :=
  if Str.len text <? 1 then
    raise ValidationError
      ("1 validation error for DocumentRequest: text: "
       +:+ "String should have at least 1 character")
  else Ok (mkDocumentRequest text).

(** pydantic's validation of a value against [str] (lax mode). *)
Definition pydantic_str (v : pyval) : result string :=
  match v with
  | PStr s => Ok s
  | _ => raise ValueError "Input should be a valid string"
  end.

(** [Optional[T]]: [None] is accepted as it is. *)
Definition pydantic_optional {T} (inner : pyval -> result T) (v : pyval)
  : result (option T) :=
  match v with
  | PNone => Ok None
  | _ => x ← inner v; Ok (Some x)
  end.

(** One field of a model: a missing keyword takes the default [None]
    and no validator runs; a given one is validated against its type
    and then handed to the field validator. *)
Definition pydantic_field {T} (kwargs : list (string * pyval)) (name : string)
    (inner : pyval -> result T)
    (after : option T -> result (option T)) : result (option T) :=
  match dict_get name kwargs with
  | None => Ok None
  | Some v => x ← pydantic_optional inner v; after x
  end.

(** The line of a [ValidationError] for one field. *)
Definition error_line {T} (name : string) (r : result T) : string :=
  match r with
  | Ok _ => EmptyString
  | Raise e => " " +:+ name +:+ ": " +:+ exn_str e +:+ ";"
  end.

(* ===================================================================== *)
(** * Calls that leave the process, and the monad that records them *)
(* ===================================================================== *)

(** The two calls the pipeline makes: the request to the AI provider
    and the run of the rule validator. *)
Inductive event :=
  | GenerateContent (prompt : string)
  | RuleValidator (data : ExtractedData).

(** A computation that may raise and whose calls are recorded in
    order. *)
Record IO (A : Type) := mkIO { trace : list event; outcome : result A }.
Arguments mkIO {A} trace outcome.
Arguments trace {A} _.
Arguments outcome {A} _.

#[global] Instance IO_ret : MRet IO := fun A a => mkIO [] (Ok a).

#[global] Instance IO_bind : MBind IO := fun A B k m =>
  match outcome m with
  | Ok a => mkIO (trace m ++ trace (k a)) (outcome (k a))
  | Raise e => mkIO (trace m) (Raise e)
  end.

(** A computation without calls. *)
Definition lift {A} (r : result A) : IO A := mkIO [] r.

(** [try: body  except Exception as e: handler e] in [IO]. *)
Definition io_try {A} (body : IO A) (handler : exn -> IO A) : IO A :=
  match outcome body with
  | Ok a => body
  | Raise e => mkIO (trace body ++ trace (handler e)) (outcome (handler e))
  end.

Definition is_RuleValidator (ev : event) : bool :=
  match ev with RuleValidator _ => true | _ => false end.

Section Program.
Context `{Runtime}.

(** pydantic's validation of a value against [float] (lax mode). *)
Definition pydantic_float (v : pyval) : result float :=
  match v with
  | PFloat f => Ok f
  | PInt n =>
      match float_of_int n with
      | Some f => Ok f
      | None => raise ValueError "Input should be a valid number"
      end
  | PBool b => Ok (float_of_bool b)
  | PStr s =>
      match str_as_float s with
      | Some f => Ok f
      | None =>
          raise ValueError
            "Input should be a valid number, unable to parse string as a number"
      end
  | _ => raise ValueError "Input should be a valid number"
  end.

(** [ExtractedData.validate_date_format] *)
Definition validate_date_format (v : option string) : result (option string) :=
  match v with
  | None => Ok v
  | Some s =>
      try_except
        (_ ← Datetime.strptime s; Ok v)
        (fun e =>
           if is_ValueError e then
             raise ValueError ("Date must be in YYYY-MM-DD format, got: " +:+ s)
           else Raise e)
  end.

(** [isinstance(v, (int, float))] for a value that passed the
    validation against [float]. *)
Definition isinstance_int_float (v : float) : bool := true.

(** [ExtractedData.validate_insured_value]: it runs after the type
    validation, so [v] is a float and [float(v)] is [v]. *)
Definition validate_insured_value (v : option float) : result (option float) :=
  match v with
  | None => Ok v
  | Some x =>
      if negb (isinstance_int_float x) then
        raise ValueError
          "Insured value must be a number, got: <class 'float'>"
      else Ok (Some x)
  end.

(** [ExtractedData] called with the keywords [kwargs]: every field is
    validated; the errors of all fields are gathered into one
    [ValidationError] (its text is pydantic's own and is abridged here).
    Keywords that name no field are ignored. *)
Definition ExtractedData_init (kwargs : list (string * pyval))
  : result ExtractedData :=
  let r1 := pydantic_field kwargs "policy_number" pydantic_str Ok in
  let r2 := pydantic_field kwargs "vessel_name" pydantic_str Ok in
  let r3 := pydantic_field kwargs "policy_start_date" pydantic_str
              validate_date_format in
  let r4 := pydantic_field kwargs "policy_end_date" pydantic_str
              validate_date_format in
  let r5 := pydantic_field kwargs "insured_value" pydantic_float
              validate_insured_value in
  match r1, r2, r3, r4, r5 with
  | Ok a, Ok b, Ok c, Ok d, Ok e => Ok (mkExtractedData a b c d e)
  | _, _, _, _, _ =>
      raise ValidationError
        ("validation errors for ExtractedData:"
         +:+ error_line "policy_number" r1
         +:+ error_line "vessel_name" r2
         +:+ error_line "policy_start_date" r3
         +:+ error_line "policy_end_date" r4
         +:+ error_line "insured_value" r5)
  end.

(** [ExtractedData] called with [extracted_dict] unpacked as keywords,
    for whatever [json.loads] returned: unpacking needs a mapping. *)
Definition ExtractedData_from (extracted_dict : pyval) : result ExtractedData :=
  match extracted_dict with
  | PDict items => ExtractedData_init items
  | _ => raise TypeError "argument after ** must be a mapping"
  end.

(* =================================================================== *)
(** * validation.py *)
(* =================================================================== *)

Record DocumentValidator := mkDocumentValidator {
  valid_vessels : gset string;
}.

(** [datetime.strptime(v, "%Y-%m-%d")] for an [Optional[str]] *)
Definition strptime_arg (v : option string) : result Datetime.datetime :=
  match v with
  | Some s => Datetime.strptime s
  | None => raise TypeError "strptime() argument 1 must be str, not None"
  end.

(** [v.meth()] for an [Optional[str]] *)
Definition str_method {A} (v : option string) (meth : string -> A) : result A :=
  match v with
  | Some s => Ok (meth s)
  | None => raise AttributeError "'NoneType' object has no attribute"
  end.

(** The body of the [try] of [_validate_date_consistency]. *)
Definition date_consistency_body (rule_name : string) (data : ExtractedData)
  : result ValidationResult :=
  if negb (opt_truthy (policy_start_date data))
     || negb (opt_truthy (policy_end_date data)) then
    ValidationResult_init rule_name "FAIL" "Missing start or end date."
  else
    start_date ← strptime_arg (policy_start_date data);
    end_date ← strptime_arg (policy_end_date data);
    if Datetime.gtb end_date start_date then
      ValidationResult_init rule_name "PASS"
        "Policy end date is after start date."
    else
      ValidationResult_init rule_name "FAIL"
        ("Policy end date (" +:+ opt_format (policy_end_date data)
         +:+ ") must be after start date ("
         +:+ opt_format (policy_start_date data) +:+ ").").

Definition _validate_date_consistency (self : DocumentValidator)
    (data : ExtractedData) : result ValidationResult :=
  let rule_name := "Date Consistency" in
  try_except (date_consistency_body rule_name data)
    (fun e =>
       if is_ValueError e then
         ValidationResult_init rule_name "FAIL"
           ("Invalid date format: " +:+ exn_str e)
       else
         ValidationResult_init rule_name "FAIL"
           ("Date validation error: " +:+ exn_str e)).

Definition _validate_insured_value (self : DocumentValidator)
    (data : ExtractedData) : result ValidationResult :=
  let rule_name := "Value Check" in
  try_except
    (match insured_value data with
     | None =>
         ValidationResult_init rule_name "FAIL" "Insured value is missing."
     | Some v =>
         if float_gt0 v then
           ValidationResult_init rule_name "PASS" "Insured value is valid."
         else
           ValidationResult_init rule_name "FAIL"
             ("Insured value (" +:+ float_str v
              +:+ ") must be greater than 0.")
     end)
    (fun e =>
       ValidationResult_init rule_name "FAIL"
         ("Value validation error: " +:+ exn_str e)).

Definition _validate_vessel_name (self : DocumentValidator)
    (data : ExtractedData) : result ValidationResult :=
  let rule_name := "Vessel Name Match" in
  try_except
    (if negb (opt_truthy (vessel_name data)) then
       ValidationResult_init rule_name "FAIL" "Vessel name is missing."
     else
       vessel_name_lower ← str_method (vessel_name data) Str.lower;
       let valid_vessels_lower : gset string :=
         set_map Str.lower (valid_vessels self) in
       if decide (vessel_name_lower ∈ valid_vessels_lower) then
         ValidationResult_init rule_name "PASS"
           ("Vessel '" +:+ opt_format (vessel_name data)
            +:+ "' is on the approved list.")
       else
         ValidationResult_init rule_name "FAIL"
           ("Vessel '" +:+ opt_format (vessel_name data)
            +:+ "' is not on the approved list."))
    (fun e =>
       ValidationResult_init rule_name "FAIL"
         ("Vessel validation error: " +:+ exn_str e)).

Definition _validate_completeness (self : DocumentValidator)
    (data : ExtractedData) : result ValidationResult :=
  let rule_name := "Completeness Check" in
  try_except
    (present ← (if opt_truthy (policy_number data)
                then stripped ← str_method (policy_number data) Str.strip;
                     Ok (Str.truthy stripped)
                else Ok false);
     if present : bool then
       ValidationResult_init rule_name "PASS" "Policy number is present."
     else
       ValidationResult_init rule_name "FAIL"
         "Policy number is missing or empty.")
    (fun e =>
       ValidationResult_init rule_name "FAIL"
         ("Completeness validation error: " +:+ exn_str e)).

(** [DocumentValidator.validate] *)
Definition validate (self : DocumentValidator) (data : ExtractedData)
  : result (list ValidationResult) :=
  let results := [] in
  r ← _validate_date_consistency self data;
  let results := results ++ [r] in
  r ← _validate_insured_value self data;
  let results := results ++ [r] in
  r ← _validate_vessel_name self data;
  let results := results ++ [r] in
  r ← _validate_completeness self data;
  let results := results ++ [r] in
  Ok results.

(* =================================================================== *)
(** * ai_extractor.py *)
(* =================================================================== *)

(** The response of the provider, as far as the program reads it:
    the accessor [response.text] gives a text, gives nothing, or raises. *)
Record GenerateContentResponse := mkResponse {
  response_text : result (option string);
}.

(** [AIExtractor]: [self.model.generate_content] is the provider; it
    returns a response object (or nothing) or raises. *)
Record AIExtractor := mkAIExtractor {
  generate_content : string -> result (option GenerateContentResponse);
}.

Definition quoted (s : string) : string := Str.dq +:+ s +:+ Str.dq.

(** [AIExtractor._build_prompt] *)
Definition _build_prompt (document_text : string) : string :=
  "You are an expert insurance document parser.
Extract and return only the following fields from the provided insurance document text in strict JSON format:
{
  " +:+ quoted "policy_number" +:+ ": " +:+ quoted "..." +:+ ",
  " +:+ quoted "vessel_name" +:+ ": " +:+ quoted "..." +:+ ",
  " +:+ quoted "policy_start_date" +:+ ": " +:+ quoted "YYYY-MM-DD" +:+ ",
  " +:+ quoted "policy_end_date" +:+ ": " +:+ quoted "YYYY-MM-DD" +:+ ",
  " +:+ quoted "insured_value" +:+ ": number
}

Rules:
- Extract dates in YYYY-MM-DD format
- Convert insured_value to a numeric value (remove currency symbols and commas)
- If a field cannot be found, use null
- Return ONLY valid JSON, no explanations or markdown

Document text:
" +:+ document_text +:+ "

Return ONLY valid JSON.".

(** [self.model.generate_content(prompt)], recorded. *)
Definition call_generate_content (self : AIExtractor) (prompt : string)
  : IO (option GenerateContentResponse) :=
  mkIO [GenerateContent prompt] (generate_content self prompt).

(** [response.text] when [not response or not response.text] is
    false, nothing when it is true. *)
Definition nonempty_text (response : option GenerateContentResponse)
  : result (option string) :=
  match response with
  | Some r =>
      t ← response_text r;
      Ok (match t with
          | Some t => if Str.truthy t then Some t else None
          | None => None
          end)
  | None => Ok None
  end.

(** [AIExtractor.extract_fields] *)
Definition extract_fields (self : AIExtractor) (document_text : string)
  : IO ExtractedData :=
  io_try
    (let prompt := _build_prompt document_text in
     response ← call_generate_content self prompt;
     response_text ← lift (nonempty_text response);
     match response_text with
     | None => lift (raise ValueError "Empty response received from Gemini AI")
     | Some response_text =>
         extracted_dict ← lift
           (try_except (json_loads response_text)
              (fun e =>
                 if is_JSONDecodeError e then
                   raise ValueError
                     ("Invalid JSON response from AI: " +:+ exn_str e)
                 else Raise e));
         lift
           (try_except (ExtractedData_from extracted_dict)
              (fun e =>
                 raise ValueError
                   ("Extracted data validation failed: " +:+ exn_str e)))
     end)
    (fun e =>
       if is_ValueError e then lift (Raise e)
       else lift (raise ValueError ("AI extraction failed: " +:+ exn_str e))).

(** [AIExtractor.extract_fields_sync]: one [try] around the whole
    body, whose only [except] clause wraps every exception. *)
Definition extract_fields_sync (self : AIExtractor) (document_text : string)
  : IO ExtractedData :=
  io_try
    (let prompt := _build_prompt document_text in
     response ← call_generate_content self prompt;
     response_text ← lift (nonempty_text response);
     match response_text with
     | None => lift (raise ValueError "Empty response received from Gemini AI")
     | Some response_text =>
         extracted_dict ← lift (json_loads response_text);
         lift (ExtractedData_from extracted_dict)
     end)
    (fun e => lift (raise ValueError ("AI extraction failed: " +:+ exn_str e))).

(** What [AIExtractor.__init__] reads from outside: the process
    environment (after [load_dotenv]) and the provider's library, whose
    [configure] and [GenerativeModel] give the model for an API key or
    raise. *)
Record Provider := mkProvider {
  getenv : string -> option string;
  GenerativeModel : string -> result AIExtractor;
}.

(** [AIExtractor()] *)
Definition AIExtractor_init (genai : Provider) : result AIExtractor :=
  let api_key := getenv genai "GEMINI_API_KEY" in
  if negb (opt_truthy api_key) then
    raise ValueError
      ("GEMINI_API_KEY not found in environment variables. "
       +:+ "Please set it in your .env file.")
  else
    try_except
      (match api_key with
       | Some key => GenerativeModel genai key
       | None => raise TypeError "api_key must be a str, not None"
       end)
      (fun e =>
         raise ValueError ("Failed to initialize Gemini API: " +:+ exn_str e)).

(* =================================================================== *)
(** * utils.py *)
(* =================================================================== *)

(** The files the program reads: [Path(filename).exists()], the text of
    [Path(filename)] inside an f-string, and the content [open] and
    [read] give (or the exception they raise). *)
Record FileSystem := mkFileSystem {
  path_exists : string -> bool;
  path_str : string -> string;
  read_text : string -> result string;
}.

(** [isinstance(v, str)] *)
Definition isinstance_str (v : pyval) : bool :=
  match v with PStr _ => true | _ => false end.

(** The elements of a list that are [str]. *)
Fixpoint str_items (l : list pyval) : list string :=
  match l with
  | [] => []
  | PStr s :: l' => s :: str_items l'
  | _ :: l' => str_items l'
  end.

(** [load_valid_vessels].  [FileNotFoundError] is an [OSError]; no
    handler of the program tells it from other exceptions that are not
    [ValueError]s. *)
Definition load_valid_vessels (fs : FileSystem) (filename : string)
  : result (gset string) :=
  if negb (path_exists fs filename) then
    raise OtherException
      ("Valid vessels file not found: " +:+ path_str fs filename +:+ ". "
       +:+ "Please ensure valid_vessels.json exists in the project root.")
  else
    try_except
      (content ← read_text fs filename;
       vessels_data ← json_loads content;
       match vessels_data with
       | PList items =>
           if negb (forallb isinstance_str items) then
             raise ValueError "All vessel names must be strings"
           else
             let vessels_set : gset string := list_to_set (str_items items) in
             Ok vessels_set
       | _ => raise ValueError "Valid vessels file must contain a JSON array"
       end)
      (fun e =>
         if is_JSONDecodeError e then
           raise ValueError
             ("Invalid JSON in valid_vessels.json: " +:+ exn_str e)
         else Raise e).

(** [sanitize_text] *)
Definition sanitize_text (text : string) (max_length : Z) : string :=
  if negb (Str.truthy text) then EmptyString
  else
    let sanitized :=
      Str.join_if (fun char => Str.isprintable char || Str.isspace char) text in
    let sanitized :=
      if Str.len sanitized >? max_length then Str.slice_to max_length sanitized
      else sanitized in
    Str.strip sanitized.

(** [validate_api_key], for whatever value it is called with. *)
Definition validate_api_key (api_key : pyval) : bool :=
  match api_key with
  | PStr key =>
      if negb (Str.truthy key) then false
      else if Str.len (Str.strip key) <? 20 then false
      else true
  | _ => false
  end.

(* =================================================================== *)
(** * main.py *)
(* =================================================================== *)

(** The module globals [ai_extractor] and [validator]. *)
Record App := mkApp {
  ai_extractor : option AIExtractor;
  validator : option DocumentValidator;
}.

(** [lifespan] up to its [yield]: the outcome of [AIExtractor()] and
    of [load_valid_vessels()] are given; any failure is raised again
    and the application does not start. *)
Definition lifespan (new_AIExtractor : result AIExtractor)
    (load_valid_vessels : result (gset string)) : result App :=
  try_except
    (extractor ← new_AIExtractor;
     valid_vessels ← load_valid_vessels;
     let validator := mkDocumentValidator valid_vessels in
     Ok (mkApp (Some extractor) (Some validator)))
    (fun e => Raise e).

(** [validator.validate(extracted_data)], recorded. *)
Definition call_validate (self : DocumentValidator) (data : ExtractedData)
  : IO (list ValidationResult) :=
  mkIO [RuleValidator data] (validate self data).

(** The route handler [validate_document]. *)
Definition validate_document (app : App) (request : DocumentRequest)
  : IO ValidationResponse :=
  match ai_extractor app, validator app with
  | Some ai, Some v =>
      if negb (Str.truthy (text request))
         || negb (Str.truthy (Str.strip (text request))) then
        lift (raise (HTTPException 400) "Document text cannot be empty")
      else
        io_try
          (extracted_data ← extract_fields ai (text request);
           validation_results ← call_validate v extracted_data;
           lift (Ok (mkValidationResponse extracted_data validation_results)))
          (fun e =>
             if is_ValueError e then
               lift (raise (HTTPException 400) (exn_str e))
             else
               lift (raise (HTTPException 500)
                       ("Internal server error: " +:+ exn_str e)))
  | _, _ =>
      lift (raise (HTTPException 500)
              "Service not properly initialized. Please try again later.")
  end.

(** [POST /validate] with a body whose [text] is [body_text]: the
    framework builds the [DocumentRequest] and answers 422 itself when
    that fails; otherwise it runs the handler. *)
Definition post_validate (app : App) (body_text : string)
  : IO ValidationResponse :=
  match DocumentRequest_init body_text with
  | Raise e => lift (raise (HTTPException 422) (exn_str e))
  | Ok request => validate_document app request
  end.

(** [lifespan] with the two initialisers as it calls them: [AIExtractor()]
    and [load_valid_vessels()] with its default file name. *)
Definition startup (genai : Provider) (fs : FileSystem) : result App :=
  lifespan (AIExtractor_init genai) (load_valid_vessels fs "valid_vessels.json").

(** The route handler [health]: the returned dict, by its items. *)
Definition health (app : App) : list (string * pyval) :=
  [("status", PStr "healthy");
   ("ai_extractor",
    PStr (match ai_extractor app with
          | Some _ => "initialized"
          | None => "not initialized"
          end));
   ("validator",
    PStr (match validator app with
          | Some _ => "initialized"
          | None => "not initialized"
          end))].

End Program.

(* ===================================================================== *)
(** * The vocabulary of the statements *)
(* ===================================================================== *)

Section Vocabulary.
Context `{Runtime}.

(** Every character of [s] is white space (true of the empty string). *)
Fixpoint all_space (s : string) : bool :=
  match s with
  | EmptyString => true
  | String c s' => Str.isspace c && all_space s'
  end.

(** A date field is absent or is accepted by [strptime] with the
    format [%Y-%m-%d], which then yields a date of the calendar. *)
Definition date_field_ok (v : option string) : Prop :=
  forall s, v = Some s ->
    exists dt, Datetime.strptime s = Ok dt /\ Datetime.calendar_date dt.

(** The field invariants of [ExtractedData]; that [insured_value] is a
    float when present is its type. *)
Definition ExtractedData_inv (data : ExtractedData) : Prop :=
  date_field_ok (policy_start_date data)
  /\ date_field_ok (policy_end_date data).

(** What every rule result must look like. *)
Definition well_formed_result (name : string) (r : ValidationResult) : Prop :=
  rule r = name
  /\ (status r = "PASS" \/ status r = "FAIL")
  /\ message r <> EmptyString.

(** A float that compares greater than zero: a positive finite number
    or plus infinity. *)
Definition positive_float (v : float) : Prop :=
  match v with
  | S754_infinity false | S754_finite false _ _ => True
  | _ => False
  end.

(** The Vessel Name Match claim as the specification words it:
    FAIL when [vessel_name] is absent; otherwise PASS exactly when the
    lower-cased name is the lower-casing of a member of the approved
    set, and the message cites the name. *)
Definition vessel_claim_as_stated (self : DocumentValidator)
    (data : ExtractedData) : Prop :=
  exists r,
    _validate_vessel_name self data = Ok r
    /\ match vessel_name data with
       | None => status r = "FAIL"
       | Some n =>
           (status r = "PASS"
            <-> exists v, v ∈ valid_vessels self
                          /\ Str.lower n = Str.lower v)
           /\ exists before after, message r = before +:+ n +:+ after
       end.

(** A keyword value that a text field ([policy_number], [vessel_name])
    rejects: anything but [None] and a [str]. *)
Definition text_malformed (v : pyval) : Prop :=
  match v with
  | PNone | PStr _ => False
  | _ => True
  end.

(** A keyword value that a date field rejects: present, and not a [str]
    that [strptime] accepts. *)
Definition date_malformed (v : pyval) : Prop :=
  match v with
  | PNone => False
  | PStr s => exists e, Datetime.strptime s = Raise e
  | _ => True
  end.

(** A keyword value that [insured_value] rejects: present and not
    numeric (a list, a dict, a string that is not a number, an integer
    beyond the float range). *)
Definition number_malformed (v : pyval) : Prop :=
  match v with
  | PNone | PFloat _ | PBool _ => False
  | PInt n => float_of_int n = None
  | PStr s => str_as_float s = None
  | PList _ | PDict _ => True
  end.

(** A present but malformed field among the keywords. *)
Definition has_malformed_field (kwargs : list (string * pyval)) : Prop :=
  (exists v, dict_get "policy_number" kwargs = Some v /\ text_malformed v)
  \/ (exists v, dict_get "vessel_name" kwargs = Some v /\ text_malformed v)
  \/ (exists v, dict_get "policy_start_date" kwargs = Some v
                /\ date_malformed v)
  \/ (exists v, dict_get "policy_end_date" kwargs = Some v /\ date_malformed v)
  \/ (exists v, dict_get "insured_value" kwargs = Some v /\ number_malformed v).

(** What [extract_fields] does, case by case on what the provider,
    [json.loads] and the model constructor do. *)
Definition extraction_outcome (ai : AIExtractor) (document_text : string)
  : result ExtractedData :=
  match generate_content ai (_build_prompt document_text) with
  | Raise e =>
      if is_ValueError e then Raise e
      else raise ValueError ("AI extraction failed: " +:+ exn_str e)
  | Ok response =>
      match nonempty_text response with
      | Raise e =>
          if is_ValueError e then Raise e
          else raise ValueError ("AI extraction failed: " +:+ exn_str e)
      | Ok None => raise ValueError "Empty response received from Gemini AI"
      | Ok (Some t) =>
          match json_loads t with
          | Raise e =>
              if is_JSONDecodeError e then
                raise ValueError
                  ("Invalid JSON response from AI: " +:+ exn_str e)
              else if is_ValueError e then Raise e
              else raise ValueError ("AI extraction failed: " +:+ exn_str e)
          | Ok obj =>
              match ExtractedData_from obj with
              | Ok data => Ok data
              | Raise e =>
                  raise ValueError
                    ("Extracted data validation failed: " +:+ exn_str e)
              end
          end
      end
  end.

Definition nonblank (s : string) : bool :=
  Str.truthy s && Str.truthy (Str.strip s).

(** Both globals are set. *)
Definition initialised (app : App) : Prop :=
  exists ai v, ai_extractor app = Some ai /\ validator app = Some v.

(** The answer of the route is whole (what the extractor returned,
    with the four results of the validator on it) or it is one error. *)
Definition whole_or_error (app : App) (request : DocumentRequest) : Prop :=
  (exists ai v data r1 r2 r3 r4,
      ai_extractor app = Some ai
      /\ validator app = Some v
      /\ outcome (extract_fields ai (text request)) = Ok data
      /\ validate v data = Ok [r1; r2; r3; r4]
      /\ outcome (validate_document app request)
         = Ok (mkValidationResponse data [r1; r2; r3; r4]))
  \/ (exists code detail,
         outcome (validate_document app request)
         = Raise (Exn (HTTPException code) detail)).

(** An [Optional[str]] field in the JSON output. *)
Definition dump_str (v : option string) : pyval :=
  match v with
  | Some s => PStr s
  | None => PNone
  end.

(** An [Optional[float]] field in the JSON output.  The model class
    configures nothing but [json_schema_extra], so pydantic's defaults
    apply: a finite float is written as a number that reads back as the
    same float, and infinity and NaN are written as [null]. *)
Definition dump_float (v : option float) : pyval :=
  match v with
  | Some f => if isfinite f then PFloat f else PNone
  | None => PNone
  end.

(** [json.loads(data.model_dump_json())]: the JSON document pydantic
    writes for the model, as the parsed dict. *)
Definition model_dump_json (data : ExtractedData) : list (string * pyval) :=
  [("policy_number", dump_str (policy_number data));
   ("vessel_name", dump_str (vessel_name data));
   ("policy_start_date", dump_str (policy_start_date data));
   ("policy_end_date", dump_str (policy_end_date data));
   ("insured_value", dump_float (insured_value data))].

(** The round trip as the specification words it: whatever instance
    the constructor builds from a parsed JSON object comes back from
    its own JSON output. *)
Definition roundtrip_as_stated (kwargs : list (string * pyval)) : Prop :=
  forall data,
    ExtractedData_init kwargs = Ok data ->
    ExtractedData_init (model_dump_json data) = Ok data.

(** Every character of [s] satisfies [p]. *)
Fixpoint all_chars (p : ascii -> bool) (s : string) : bool :=
  match s with
  | EmptyString => true
  | String c s' => p c && all_chars p s'
  end.

(** The characters [sanitize_text] lets through. *)
Definition kept_char (c : ascii) : bool := Str.isprintable c || Str.isspace c.

(** An exception as the handler of [load_valid_vessels] passes it on. *)
Definition vessels_file_error (e : exn) : exn :=
  if is_JSONDecodeError e then
    Exn ValueError ("Invalid JSON in valid_vessels.json: " +:+ exn_str e)
  else e.

(** The text [/health] reports for both globals when they are set. *)
Definition reports_initialized (report : list (string * pyval)) : Prop :=
  dict_get "ai_extractor" report = Some (PStr "initialized")
  /\ dict_get "validator" report = Some (PStr "initialized").

(** The error of the route on an application that did not start. *)
Definition not_initialized_error : exn :=
  Exn (HTTPException 500)
    "Service not properly initialized. Please try again later.".

(** All four results are PASS. *)
Definition all_pass (results : list ValidationResult) : Prop :=
  Forall (fun r => status r = "PASS") results.

(** What the one [except] clause of [extract_fields_sync] makes of the
    body of its [try]. *)
Definition sync_wrap {A} (r : result A) : result A :=
  match r with
  | Ok a => Ok a
  | Raise e => raise ValueError ("AI extraction failed: " +:+ exn_str e)
  end.

(** Both dates are present, [strptime] reads both, and the end date is
    the later one. *)
Definition dates_in_order (data : ExtractedData) : Prop :=
  exists s e ds de,
    policy_start_date data = Some s
    /\ policy_end_date data = Some e
    /\ Datetime.strptime s = Ok ds
    /\ Datetime.strptime e = Ok de
    /\ Datetime.lt ds de.

(** The vessel name is present, not empty, and equal to a member of the
    approved set up to letter case. *)
Definition vessel_approved (self : DocumentValidator) (data : ExtractedData)
  : Prop :=
  exists n v,
    vessel_name data = Some n
    /\ n <> EmptyString
    /\ v ∈ valid_vessels self
    /\ Str.lower n = Str.lower v.

(** The record meets the conditions of all four rules. *)
Definition fully_valid (self : DocumentValidator) (data : ExtractedData)
  : Prop :=
  dates_in_order data
  /\ (exists v, insured_value data = Some v /\ positive_float v)
  /\ vessel_approved self data
  /\ (exists p, policy_number data = Some p /\ Str.strip p <> EmptyString).

End Vocabulary.

(* ===================================================================== *)
(** * Data for concrete runs *)
(* ===================================================================== *)

(** The approved set that holds only the empty name, and a record whose
    vessel name is the empty string. *)
Definition empty_name_validator : DocumentValidator :=
  mkDocumentValidator {[ EmptyString ]}.

Definition empty_name_data : ExtractedData :=
  mkExtractedData None (Some EmptyString) None None None.

(** The extractor output of the specification's worked example, as JSON
    text and as the parsed dict. *)
Definition sample_json : string :=
  "{" +:+ quoted "policy_number" +:+ ": " +:+ quoted "HM-1" +:+ ", "
  +:+ quoted "vessel_name" +:+ ": " +:+ quoted "MV Neptune" +:+ ", "
  +:+ quoted "policy_start_date" +:+ ": " +:+ quoted "2025-11-01" +:+ ", "
  +:+ quoted "policy_end_date" +:+ ": " +:+ quoted "2026-10-31" +:+ ", "
  +:+ quoted "insured_value" +:+ ": 5000000}".

Definition sample_kwargs : list (string * pyval) :=
  [("policy_number", PStr "HM-1");
   ("vessel_name", PStr "MV Neptune");
   ("policy_start_date", PStr "2025-11-01");
   ("policy_end_date", PStr "2026-10-31");
   ("insured_value", PInt 5000000)].

(** 5000000.0 and -100.0 *)
Definition five_million : float := S754_finite false 5368709120000000 (-30).
Definition minus_hundred : float := S754_finite true 7036874417766400 (-46).

(** A runtime for concrete runs: [json.loads] knows the sample document
    and rejects every other text; the conversion of strings to floats
    knows none; floats are printed for the two values used here. *)
Definition test_runtime : Runtime := {|
  float_str := fun f =>
    match f with
    | S754_finite true _ _ => "-100.0"
    | S754_finite false _ _ => "5000000.0"
    | S754_zero _ => "0.0"
    | S754_infinity _ => "inf"
    | S754_nan => "nan"
    end;
  str_as_float := fun _ => None;
  json_loads := fun t =>
    if String.eqb t sample_json then Ok (PDict sample_kwargs)
    else raise JSONDecodeError "Expecting value: line 1 column 1 (char 0)";
|}.

Definition sample_data : ExtractedData :=
  mkExtractedData (Some "HM-1") (Some "MV Neptune") (Some "2025-11-01")
    (Some "2026-10-31") (Some five_million).

Definition sample_validator : DocumentValidator :=
  mkDocumentValidator {[ "MV Neptune" ]}.

(** A provider that answers with the sample document, and one that
    answers with nothing. *)
Definition sample_ai : AIExtractor :=
  mkAIExtractor (fun _ => Ok (Some (mkResponse (Ok (Some sample_json))))).

Definition silent_ai : AIExtractor := mkAIExtractor (fun _ => Ok None).

Definition sample_app : App := mkApp (Some sample_ai) (Some sample_validator).
Definition silent_app : App := mkApp (Some silent_ai) (Some sample_validator).

Definition sample_request : DocumentRequest :=
  mkDocumentRequest "The vessel MV Neptune is covered under policy HM-1.".

(** Keywords with a date that is not in the format, and keywords whose
    insured value is plus infinity (what [json.loads] returns for the
    JSON number [1e999]). *)
Definition bad_date_kwargs : list (string * pyval) :=
  [("policy_number", PStr "HM-1"); ("policy_start_date", PStr "01/11/2025")].

Definition infinity_kwargs : list (string * pyval) :=
  [("insured_value", PFloat (S754_infinity false))].

Definition infinity_data : ExtractedData :=
  mkExtractedData None None None None (Some (S754_infinity false)).

Definition no_value_data : ExtractedData :=
  mkExtractedData None None None None None.

(** A vessels file with two names, a runtime whose [json.loads] also
    reads it, the file system that holds it, and a provider library
    with an API key in the environment. *)
Definition vessels_json : string :=
  "[" +:+ quoted "MV Neptune" +:+ ", " +:+ quoted "Sea Breeze" +:+ "]".

Definition vessels_runtime : Runtime := {|
  float_str := @float_str test_runtime;
  str_as_float := fun _ => None;
  json_loads := fun t =>
    if String.eqb t vessels_json then
      Ok (PList [PStr "MV Neptune"; PStr "Sea Breeze"])
    else @json_loads test_runtime t;
|}.

Definition sample_fs : FileSystem :=
  mkFileSystem
    (fun filename => String.eqb filename "valid_vessels.json")
    (fun filename => filename)
    (fun filename =>
       if String.eqb filename "valid_vessels.json" then Ok vessels_json
       else raise OtherException "[Errno 2] No such file or directory").

Definition sample_genai : Provider :=
  mkProvider
    (fun name =>
       if String.eqb name "GEMINI_API_KEY" then Some "sample-key-0123456789abcdef"
       else None)
    (fun _ => Ok sample_ai).

Definition started_app : App :=
  mkApp (Some sample_ai)
    (Some (mkDocumentValidator (list_to_set ["MV Neptune"; "Sea Breeze"]))).

(** The sample record with its two dates exchanged, and with its vessel
    name in another letter case. *)
Definition swapped_data : ExtractedData :=
  mkExtractedData (Some "HM-1") (Some "MV Neptune") (Some "2026-10-31")
    (Some "2025-11-01") (Some five_million).

Definition recased_data : ExtractedData :=
  mkExtractedData (Some "HM-1") (Some "mv NEPTUNE") (Some "2025-11-01")
    (Some "2026-10-31") (Some five_million).

(* ===================================================================== *)
(** * Facts about the string primitives *)
(* ===================================================================== *)

Lemma lstrip_head s :
  Str.lstrip s = EmptyString
  \/ exists c r, Str.lstrip s = String c r /\ Str.isspace c = false.
Proof.
  induction s as [|c s IH]; simpl; [now left|].
  destruct (Str.isspace c) eqn:Hc; [exact IH|].
  right; exists c, s; auto.
Qed.

Lemma lstrip_empty_iff s : Str.lstrip s = EmptyString <-> all_space s = true.
Proof.
  induction s as [|c s IH]; simpl; [tauto|].
  destruct (Str.isspace c); simpl; [exact IH|].
  split; discriminate.
Qed.

Lemma rstrip_nonspace_head c r :
  Str.isspace c = false -> Str.rstrip (String c r) <> EmptyString.
Proof.
  intros Hc; simpl. destruct (Str.rstrip r); [rewrite Hc|]; discriminate.
Qed.

Lemma strip_empty_iff s : Str.strip s = EmptyString <-> all_space s = true.
Proof.
  unfold Str.strip. rewrite <- lstrip_empty_iff.
  destruct (lstrip_head s) as [E | (c & r & E & Hc)]; rewrite E.
  - simpl; tauto.
  - split; [|discriminate].
    intros Hr. now apply rstrip_nonspace_head in Hr.
Qed.

Lemma truthy_false_iff s : Str.truthy s = false <-> s = EmptyString.
Proof. destruct s; simpl; intuition congruence. Qed.

Lemma truthy_true_iff s : Str.truthy s = true <-> s <> EmptyString.
Proof. destruct s; simpl; intuition congruence. Qed.

Lemma rstrip_cons c s :
  Str.rstrip (String c s)
  = match Str.rstrip s with
    | EmptyString => if Str.isspace c then EmptyString else String c EmptyString
    | r => String c r
    end.
Proof. reflexivity. Qed.

Lemma rstrip_all_space s : all_space s = true -> Str.rstrip s = EmptyString.
Proof.
  induction s as [|c s IH]; simpl; [reflexivity|].
  intros Hs. apply andb_true_iff in Hs as [Hc Hs].
  rewrite (IH Hs), Hc. reflexivity.
Qed.

Lemma rstrip_idem s : Str.rstrip (Str.rstrip s) = Str.rstrip s.
Proof.
  induction s as [|c s IH]; [reflexivity|].
  rewrite rstrip_cons.
  destruct (Str.rstrip s) as [|d r] eqn:E.
  - destruct (Str.isspace c) eqn:Hc; [reflexivity|].
    rewrite rstrip_cons. simpl. now rewrite Hc.
  - rewrite rstrip_cons, IH. reflexivity.
Qed.

Lemma rstrip_keeps_head c r :
  Str.isspace c = false -> exists r', Str.rstrip (String c r) = String c r'.
Proof.
  intros Hc. simpl. destruct (Str.rstrip r); [rewrite Hc|]; eauto.
Qed.

Lemma lstrip_strip s : Str.lstrip (Str.strip s) = Str.strip s.
Proof.
  unfold Str.strip.
  destruct (lstrip_head s) as [E | (c & r & E & Hc)]; rewrite E.
  - reflexivity.
  - destruct (rstrip_keeps_head c r Hc) as [r' ->]. simpl. now rewrite Hc.
Qed.

(** Stripping twice is stripping once. *)
Lemma strip_idem s : Str.strip (Str.strip s) = Str.strip s.
Proof.
  unfold Str.strip at 1. rewrite lstrip_strip.
  unfold Str.strip. apply rstrip_idem.
Qed.

Lemma length_lstrip s : (String.length (Str.lstrip s) <= String.length s)%nat.
Proof.
  induction s as [|c s IH]; simpl; [lia|].
  destruct (Str.isspace c); simpl; lia.
Qed.

Lemma length_rstrip s : (String.length (Str.rstrip s) <= String.length s)%nat.
Proof.
  induction s as [|c s IH]; simpl; [lia|].
  destruct (Str.rstrip s); [destruct (Str.isspace c)|]; simpl in *; lia.
Qed.

Lemma len_strip s : Str.len (Str.strip s) <= Str.len s.
Proof.
  unfold Str.len, Str.strip.
  pose proof (length_rstrip (Str.lstrip s)). pose proof (length_lstrip s). lia.
Qed.

(** White space around a text does not change what [strip] returns. *)
Lemma lstrip_app_space a s :
  all_space a = true -> Str.lstrip (a +:+ s) = Str.lstrip s.
Proof.
  induction a as [|c a IH]; simpl; [reflexivity|].
  intros Ha. apply andb_true_iff in Ha as [-> Ha]. auto.
Qed.

Lemma rstrip_app_space s b :
  all_space b = true -> Str.rstrip (s +:+ b) = Str.rstrip s.
Proof.
  intros Hb. induction s as [|c s IH].
  - simpl. now apply rstrip_all_space.
  - change (String c s +:+ b) with (String c (s +:+ b)).
    rewrite !rstrip_cons, IH. reflexivity.
Qed.

Lemma lstrip_app s b :
  Str.lstrip (s +:+ b)
  = if all_space s then Str.lstrip b else Str.lstrip s +:+ b.
Proof.
  induction s as [|c s IH]; simpl; [reflexivity|].
  destruct (Str.isspace c); simpl; [exact IH|reflexivity].
Qed.

Lemma strip_padding a s b :
  all_space a = true -> all_space b = true ->
  Str.strip (a +:+ s +:+ b) = Str.strip s.
Proof.
  intros Ha Hb. unfold Str.strip.
  rewrite (lstrip_app_space a _ Ha), lstrip_app.
  destruct (all_space s) eqn:Hs.
  - apply lstrip_empty_iff in Hb, Hs. rewrite Hb, Hs. reflexivity.
  - now apply rstrip_app_space.
Qed.

(** [all_chars] along the string operations. *)
Lemma all_chars_isspace s : all_chars Str.isspace s = all_space s.
Proof. induction s as [|c s IH]; simpl; [reflexivity|]. now rewrite IH. Qed.

Lemma all_chars_lstrip p s :
  all_chars p s = true -> all_chars p (Str.lstrip s) = true.
Proof.
  induction s as [|c s IH]; simpl; [auto|].
  intros Hs. destruct (Str.isspace c); [|exact Hs].
  apply andb_true_iff in Hs as [_ Hs]. auto.
Qed.

Lemma all_chars_rstrip p s :
  all_chars p s = true -> all_chars p (Str.rstrip s) = true.
Proof.
  induction s as [|c s IH]; simpl; [auto|].
  intros Hs. apply andb_true_iff in Hs as [Hc Hs]. specialize (IH Hs).
  destruct (Str.rstrip s).
  - destruct (Str.isspace c); simpl; [reflexivity|]. now rewrite Hc.
  - simpl in *. now rewrite Hc.
Qed.

Lemma all_chars_strip p s :
  all_chars p s = true -> all_chars p (Str.strip s) = true.
Proof. intros Hs. now apply all_chars_rstrip, all_chars_lstrip. Qed.

Lemma all_chars_join_if p s : all_chars p (Str.join_if p s) = true.
Proof.
  induction s as [|c s IH]; simpl; [reflexivity|].
  destruct (p c) eqn:Hc; simpl; [rewrite Hc|]; exact IH.
Qed.

Lemma all_chars_join_if_other p q s :
  all_chars q s = true -> all_chars q (Str.join_if p s) = true.
Proof.
  induction s as [|c s IH]; simpl; [reflexivity|].
  intros Hs. apply andb_true_iff in Hs as [Hc Hs].
  destruct (p c); simpl; [rewrite Hc; simpl|]; auto.
Qed.

Lemma join_if_all_chars p s : all_chars p s = true -> Str.join_if p s = s.
Proof.
  induction s as [|c s IH]; simpl; [reflexivity|].
  intros Hs. apply andb_true_iff in Hs as [-> Hs]. now rewrite IH.
Qed.

Lemma length_join_if p s :
  (String.length (Str.join_if p s) <= String.length s)%nat.
Proof.
  induction s as [|c s IH]; simpl; [lia|]. destruct (p c); simpl; lia.
Qed.

Lemma length_take n s :
  (String.length (Str.take n s) <= n
   /\ String.length (Str.take n s) <= String.length s)%nat.
Proof.
  revert s; induction n as [|n IH]; intros [|c s]; simpl; try lia.
  specialize (IH s). lia.
Qed.

Lemma all_chars_take p n s :
  all_chars p s = true -> all_chars p (Str.take n s) = true.
Proof.
  revert s; induction n as [|n IH]; intros [|c s]; simpl; auto.
  intros Hs. apply andb_true_iff in Hs as [-> Hs]. simpl. auto.
Qed.

(** A slice [s[:stop]] is no longer than [s], no longer than a [stop]
    that is not negative, and holds characters of [s] only. *)
Lemma slice_to_facts p stop s :
  Str.len (Str.slice_to stop s) <= Str.len s
  /\ (0 <= stop -> Str.len (Str.slice_to stop s) <= stop)
  /\ (all_chars p s = true -> all_chars p (Str.slice_to stop s) = true).
Proof.
  unfold Str.slice_to, Str.len.
  destruct (stop <? 0) eqn:Hneg.
  - apply Z.ltb_lt in Hneg.
    pose proof (length_take (Z.to_nat (Z.of_nat (String.length s) + stop)) s).
    split; [lia|]. split; [lia|]. apply all_chars_take.
  - apply Z.ltb_ge in Hneg.
    pose proof (length_take (Z.to_nat stop) s).
    split; [lia|]. split; [lia|]. apply all_chars_take.
Qed.

(** Concatenation: cancellation on both sides, and lengths. *)
Lemma append_cons c (a b : string) : String c a +:+ b = String c (a +:+ b).
Proof. reflexivity. Qed.

Lemma append_inv_head p x y : p +:+ x = p +:+ y -> x = y.
Proof.
  induction p as [|c p IH]; [auto|]. rewrite !append_cons. intros [= E]. auto.
Qed.

Lemma length_append x y :
  String.length (x +:+ y) = (String.length x + String.length y)%nat.
Proof.
  induction x as [|c x IH]; [reflexivity|].
  rewrite append_cons. simpl. now rewrite IH.
Qed.

Lemma append_inv_tail x y q : x +:+ q = y +:+ q -> x = y.
Proof.
  revert y. induction x as [|c x IH]; intros [|d y] E.
  - reflexivity.
  - apply (f_equal String.length) in E.
    rewrite !length_append in E. simpl in E. lia.
  - apply (f_equal String.length) in E.
    rewrite !length_append in E. simpl in E. lia.
  - rewrite !append_cons in E. injection E as -> E. f_equal. auto.
Qed.

Lemma prefix_append p s : String.prefix p (p +:+ s) = true.
Proof.
  induction p as [|c p IH]; simpl; [now destruct s|].
  destruct (ascii_dec c c); [exact IH|congruence].
Qed.

(* ===================================================================== *)
(** * Facts about dates *)
(* ===================================================================== *)

Lemma datetime_ltb_lt a b : Datetime.ltb a b = true <-> Datetime.lt a b.
Proof.
  unfold Datetime.ltb, Datetime.lt.
  rewrite !orb_true_iff, !andb_true_iff, !orb_true_iff, !andb_true_iff.
  rewrite !Z.ltb_lt, !Z.eqb_eq. tauto.
Qed.

Lemma datetime_lt_irrefl a : ~ Datetime.lt a a.
Proof. unfold Datetime.lt. lia. Qed.

Lemma is_leap_spec y :
  Datetime.is_leap y = true
  <-> (y mod 4 = 0 /\ (y mod 100 <> 0 \/ y mod 400 = 0)).
Proof.
  unfold Datetime.is_leap. rewrite andb_true_iff, orb_true_iff, negb_true_iff.
  rewrite !Z.eqb_eq, Z.eqb_neq. tauto.
Qed.

(** A year is 365 days long, 366 when it is a leap year. *)
Lemma days_before_year_succ y :
  Datetime.days_before_year (y + 1)
  = Datetime.days_before_year y + (if Datetime.is_leap y then 366 else 365).
Proof.
  unfold Datetime.days_before_year. cbv zeta.
  replace (y + 1 - 1) with y by lia.
  destruct (Datetime.is_leap y) eqn:L.
  - apply is_leap_spec in L. Z.div_mod_to_equations. lia.
  - assert (~ (y mod 4 = 0 /\ (y mod 100 <> 0 \/ y mod 400 = 0))) as N
      by (rewrite <- is_leap_spec; congruence).
    Z.div_mod_to_equations. lia.
Qed.

Lemma days_before_year_mono y1 y2 :
  y1 <= y2 -> Datetime.days_before_year y1 <= Datetime.days_before_year y2.
Proof.
  unfold Datetime.days_before_year. cbv zeta. intros Hle.
  Z.div_mod_to_equations. lia.
Qed.

(** A number within [k] steps above [lo] is one of the [k] values. *)
Lemma Z_range_cases (lo : Z) (k : nat) (n : Z) :
  lo <= n < lo + Z.of_nat k ->
  In n (List.map (fun i => lo + Z.of_nat i) (List.seq 0 k)).
Proof.
  intros Hn. apply in_map_iff. exists (Z.to_nat (n - lo)).
  split; [lia|]. apply in_seq. lia.
Qed.

(** One goal for each value of [n] from [lo], [k] of them. *)
Ltac range_cases n lo k :=
  let K := fresh "K" in
  pose proof (Z_range_cases lo k n ltac:(simpl; lia)) as K; simpl in K;
  repeat (destruct K as [K | K]; [subst n | ]); [.. | contradiction].

Ltac month_table y :=
  unfold Datetime.days_before_month, Datetime.days_in_month,
    Datetime.DAYS_BEFORE_MONTH;
  destruct (Datetime.is_leap y); simpl; lia.

(** A later month starts after the last day of an earlier one. *)
Lemma days_before_month_mono y m1 m2 :
  1 <= m1 -> m1 < m2 -> m2 <= 12 ->
  Datetime.days_before_month y m1 + Datetime.days_in_month y m1
  <= Datetime.days_before_month y m2.
Proof.
  intros H1 H12 H2.
  range_cases m1 1 12%nat; range_cases m2 1 12%nat; try lia; month_table y.
Qed.

(** The last day of a month is within the year. *)
Lemma days_before_month_end y m :
  1 <= m <= 12 ->
  Datetime.days_before_month y m + Datetime.days_in_month y m
  <= (if Datetime.is_leap y then 366 else 365).
Proof. intros Hm. range_cases m 1 12%nat; month_table y. Qed.

Lemma days_before_month_nonneg y m :
  1 <= m <= 12 -> 0 <= Datetime.days_before_month y m.
Proof. intros Hm. range_cases m 1 12%nat; month_table y. Qed.

Lemma toordinal_lt a b :
  Datetime.calendar_date a -> Datetime.calendar_date b ->
  Datetime.lt a b -> Datetime.toordinal a < Datetime.toordinal b.
Proof.
  intros (Ya & Ma & Da) (Yb & Mb & Db) Hlt. unfold Datetime.toordinal.
  destruct Hlt as [Hy | (Ey & [Hm | (Em & Hd)])].
  - pose proof (days_before_month_end (Datetime.year a) _ Ma) as Ea.
    pose proof (days_before_year_succ (Datetime.year a)) as Sa.
    pose proof (days_before_year_mono (Datetime.year a + 1) (Datetime.year b))
      as Mo.
    pose proof (days_before_month_nonneg (Datetime.year b) _ Mb) as Nb.
    destruct (Datetime.is_leap (Datetime.year a)); lia.
  - rewrite Ey in *.
    pose proof (days_before_month_mono (Datetime.year b) (Datetime.month a)
                  (Datetime.month b)) as Mo.
    lia.
  - rewrite Ey, Em in *. lia.
Qed.

(** The comparison of datetimes is the order of the days of the
    calendar. *)
Lemma toordinal_order a b :
  Datetime.calendar_date a -> Datetime.calendar_date b ->
  (Datetime.lt a b <-> Datetime.toordinal a < Datetime.toordinal b).
Proof.
  intros Ca Cb. split; [now apply toordinal_lt|].
  intros Hord.
  assert (Datetime.lt a b \/ Datetime.lt b a
          \/ (Datetime.year a = Datetime.year b
              /\ Datetime.month a = Datetime.month b
              /\ Datetime.day a = Datetime.day b))
    as [Hl|[Hl|(E1 & E2 & E3)]] by (unfold Datetime.lt; lia).
  - exact Hl.
  - apply (toordinal_lt b a Cb Ca) in Hl. lia.
  - unfold Datetime.toordinal in Hord. rewrite E1, E2, E3 in Hord. lia.
Qed.

(* ===================================================================== *)
(** * The model invariant *)
(* ===================================================================== *)

Lemma strptime_nonempty s dt : Datetime.strptime s = Ok dt -> s <> EmptyString.
Proof. intros Hs ->. discriminate Hs. Qed.

Lemma date_new_calendar y m d dt :
  Datetime.date_new y m d = Ok dt -> Datetime.calendar_date dt.
Proof.
  unfold Datetime.date_new.
  destruct ((1 <=? y) && (y <=? 9999)) eqn:Hy; simpl; [|discriminate].
  destruct ((1 <=? m) && (m <=? 12)) eqn:Hm; simpl; [|discriminate].
  destruct ((1 <=? d) && (d <=? Datetime.days_in_month y m)) eqn:Hd; simpl;
    [|discriminate].
  intros [= <-]. unfold Datetime.calendar_date. simpl.
  apply andb_true_iff in Hy as [Hy1 Hy2], Hm as [Hm1 Hm2], Hd as [Hd1 Hd2].
  apply Z.leb_le in Hy1, Hy2, Hm1, Hm2, Hd1, Hd2. lia.
Qed.

(** Whatever [strptime] returns is a date of the calendar. *)
Lemma strptime_calendar s dt :
  Datetime.strptime s = Ok dt -> Datetime.calendar_date dt.
Proof.
  unfold Datetime.strptime.
  destruct (Datetime.format_regex_match s) as [[[[Y m] d] rest]|];
    [|discriminate].
  destruct (Str.truthy rest); [discriminate|].
  apply date_new_calendar.
Qed.

Lemma digit_char_facts n : 0 <= n <= 9 ->
  Str.is_digit (Datetime.digit_char n) = true
  /\ Str.isspace (Datetime.digit_char n) = false
  /\ Z.of_N (Str.ord (Datetime.digit_char n)) - 48 = n.
Proof.
  intros Hn. range_cases n 0 10%nat; repeat split; reflexivity.
Qed.

Lemma int_zero_pad4 y : 0 <= y <= 9999 -> Str.int (Datetime.zero_pad4 y) = y.
Proof.
  intros Hy.
  assert (0 <= y / 1000 <= 9) as H1 by (Z.div_mod_to_equations; lia).
  assert (0 <= y / 100 mod 10 <= 9) as H2 by (Z.div_mod_to_equations; lia).
  assert (0 <= y / 10 mod 10 <= 9) as H3 by (Z.div_mod_to_equations; lia).
  assert (0 <= y mod 10 <= 9) as H4 by (Z.div_mod_to_equations; lia).
  destruct (digit_char_facts _ H1) as (_ & S1 & V1).
  destruct (digit_char_facts _ H2) as (_ & S2 & V2).
  destruct (digit_char_facts _ H3) as (_ & S3 & V3).
  destruct (digit_char_facts _ H4) as (_ & S4 & V4).
  unfold Str.int, Str.strip, Datetime.zero_pad4. simpl. rewrite S1. simpl.
  rewrite S4. simpl. rewrite V1, V2, V3, V4.
  Z.div_mod_to_equations. lia.
Qed.

Lemma match_Y_zero_pad4 {R} y rest (k : string -> string -> option R) :
  0 <= y <= 9999 ->
  Datetime.match_group Datetime.re_Y (Datetime.zero_pad4 y +:+ rest) k
  = k (Datetime.zero_pad4 y) rest.
Proof.
  intros Hy.
  assert (0 <= y / 1000 <= 9) as H1 by (Z.div_mod_to_equations; lia).
  assert (0 <= y / 100 mod 10 <= 9) as H2 by (Z.div_mod_to_equations; lia).
  assert (0 <= y / 10 mod 10 <= 9) as H3 by (Z.div_mod_to_equations; lia).
  assert (0 <= y mod 10 <= 9) as H4 by (Z.div_mod_to_equations; lia).
  destruct (digit_char_facts _ H1) as (D1 & _ & _).
  destruct (digit_char_facts _ H2) as (D2 & _ & _).
  destruct (digit_char_facts _ H3) as (D3 & _ & _).
  destruct (digit_char_facts _ H4) as (D4 & _ & _).
  unfold Datetime.zero_pad4, Datetime.re_Y. simpl. rewrite D1, D2, D3, D4.
  change (EmptyString +:+ rest) with rest.
  destruct (k _ rest); reflexivity.
Qed.

Lemma format_regex_match_iso y m d :
  0 <= y <= 9999 -> 1 <= m <= 12 -> 1 <= d <= 31 ->
  Datetime.format_regex_match
    (Datetime.zero_pad4 y +:+ "-" +:+ Datetime.zero_pad2 m +:+ "-" +:+ Datetime.zero_pad2 d)
  = Some (Datetime.zero_pad4 y, Datetime.zero_pad2 m, Datetime.zero_pad2 d, EmptyString)
  /\ Str.int (Datetime.zero_pad2 m) = m /\ Str.int (Datetime.zero_pad2 d) = d.
Proof.
  intros Hy Hm Hd. unfold Datetime.format_regex_match.
  rewrite match_Y_zero_pad4 by exact Hy.
  generalize (Datetime.zero_pad4 y) as Y. intros Y.
  range_cases m 1 12%nat; range_cases d 1 31%nat; repeat split; reflexivity.
Qed.

Lemma days_in_month_le_31 y m : Datetime.days_in_month y m <= 31.
Proof.
  unfold Datetime.days_in_month.
  repeat match goal with |- context [if ?b then _ else _] => destruct b end;
    lia.
Qed.

(** Every date of the calendar, written as [YYYY-MM-DD], parses to
    itself. *)
Lemma strptime_isoformat d :
  Datetime.calendar_date d -> Datetime.strptime (Datetime.isoformat d) = Ok d.
Proof.
  destruct d as [y m dd]. unfold Datetime.calendar_date, Datetime.isoformat. simpl.
  intros (Hy & Hm & Hd).
  pose proof (days_in_month_le_31 y m) as Hle.
  destruct (format_regex_match_iso y m dd) as (Hre & Im & Id); try lia.
  unfold Datetime.strptime. rewrite Hre. simpl.
  rewrite int_zero_pad4 by lia. rewrite Im, Id.
  unfold Datetime.date_new.
  replace ((1 <=? y) && (y <=? 9999)) with true
    by (symmetry; apply andb_true_iff; split; apply Z.leb_le; lia).
  replace ((1 <=? m) && (m <=? 12)) with true
    by (symmetry; apply andb_true_iff; split; apply Z.leb_le; lia).
  replace ((1 <=? dd) && (dd <=? Datetime.days_in_month y m)) with true
    by (symmetry; apply andb_true_iff; split; apply Z.leb_le; lia).
  reflexivity.
Qed.

(* ===================================================================== *)
(** * The rules of [DocumentValidator] *)
(* ===================================================================== *)

Section Rules.
Context `{Runtime}.

(** The body of the date rule on two dates that parse. *)
Lemma date_body_parsed data s e ds de :
  policy_start_date data = Some s ->
  policy_end_date data = Some e ->
  Datetime.strptime s = Ok ds ->
  Datetime.strptime e = Ok de ->
  date_consistency_body "Date Consistency" data
  = if Datetime.ltb ds de then
      Ok (mkValidationResult "Date Consistency" "PASS"
            "Policy end date is after start date.")
    else
      Ok (mkValidationResult "Date Consistency" "FAIL"
            ("Policy end date (" +:+ e +:+ ") must be after start date ("
             +:+ s +:+ ").")).
Proof.
  intros Hs He Hds Hde. unfold date_consistency_body.
  rewrite Hs, He. simpl.
  pose proof (strptime_nonempty _ _ Hds) as Ns.
  pose proof (strptime_nonempty _ _ Hde) as Ne.
  apply truthy_true_iff in Ns, Ne. rewrite Ns, Ne. simpl.
  rewrite Hds. simpl. rewrite Hde. simpl.
  unfold Datetime.gtb. destruct (Datetime.ltb ds de); reflexivity.
Qed.

Lemma date_body_missing data :
  policy_start_date data = None \/ policy_end_date data = None ->
  date_consistency_body "Date Consistency" data
  = Ok (mkValidationResult "Date Consistency" "FAIL"
          "Missing start or end date.").
Proof.
  intros [E | E]; unfold date_consistency_body; rewrite E; simpl.
  - reflexivity.
  - rewrite orb_true_r. reflexivity.
Qed.

(** C1.  On a record that satisfies the field invariants and has both
    dates, the Date Consistency rule answers PASS exactly when the
    parsed end date is strictly after the parsed start date (a later
    day of the calendar); otherwise (equal dates included) it answers
    FAIL with a message that cites the end date and the start date.
    When a date is absent it answers FAIL with the message
    [Missing start or end date.] *)
Theorem date_consistency_spec (self : DocumentValidator)
    (data : ExtractedData) :
  (ExtractedData_inv data ->
   forall s e,
      policy_start_date data = Some s ->
      policy_end_date data = Some e ->
      exists ds de r,
        Datetime.strptime s = Ok ds
        /\ Datetime.strptime e = Ok de
        /\ _validate_date_consistency self data = Ok r
        /\ rule r = "Date Consistency"
        /\ (status r = "PASS" <-> Datetime.lt ds de)
        /\ (Datetime.lt ds de
            <-> Datetime.toordinal ds < Datetime.toordinal de)
        /\ (ds = de -> status r = "FAIL")
        /\ (~ Datetime.lt ds de ->
            status r = "FAIL"
            /\ message r
               = "Policy end date (" +:+ e +:+ ") must be after start date ("
                 +:+ s +:+ ")."))
  /\ (policy_start_date data = None \/ policy_end_date data = None ->
      _validate_date_consistency self data
      = Ok (mkValidationResult "Date Consistency" "FAIL"
              "Missing start or end date.")).
Proof.
  split.
  - intros [Hstart Hend] s e Hs He.
    destruct (Hstart s Hs) as (ds & Hds & Cs).
    destruct (Hend e He) as (de & Hde & Ce).
    pose proof (toordinal_order ds de Cs Ce) as Hord.
    exists ds, de.
    unfold _validate_date_consistency.
    rewrite (date_body_parsed data s e ds de Hs He Hds Hde).
    destruct (Datetime.ltb ds de) eqn:Hlt; simpl.
    + apply datetime_ltb_lt in Hlt.
      eexists. split; [exact Hds|]. split; [exact Hde|].
      do 2 (split; [reflexivity|]). simpl.
      split; [tauto|]. split; [exact Hord|]. split; [|tauto].
      intros ->. now apply datetime_lt_irrefl in Hlt.
    + assert (~ Datetime.lt ds de) as Hn
          by (rewrite <- datetime_ltb_lt; congruence).
      eexists. split; [exact Hds|]. split; [exact Hde|].
      do 2 (split; [reflexivity|]). simpl.
      split; [split; [discriminate|tauto]|]. split; [exact Hord|].
      split; auto.
  - intros Hmiss. unfold _validate_date_consistency.
    rewrite (date_body_missing data Hmiss). reflexivity.
Qed.

(** C10.  On a record that satisfies the field invariants the two
    [strptime] calls of the Date Consistency rule succeed whenever both
    dates are present, the body of its [try] returns without raising,
    so no [except] clause runs, and the message of the result does not
    start with [Invalid date format: ]. *)
Theorem date_parse_failure_unreachable (self : DocumentValidator)
    (data : ExtractedData) :
  ExtractedData_inv data ->
  (forall s e,
      policy_start_date data = Some s ->
      policy_end_date data = Some e ->
      exists ds de,
        strptime_arg (policy_start_date data) = Ok ds
        /\ strptime_arg (policy_end_date data) = Ok de)
  /\ exists r,
      date_consistency_body "Date Consistency" data = Ok r
      /\ _validate_date_consistency self data = Ok r
      /\ String.prefix "Invalid date format: " (message r) = false.
Proof.
  intros [Hstart Hend]. split.
  - intros s e Hs He.
    destruct (Hstart s Hs) as (ds & Hds & _).
    destruct (Hend e He) as (de & Hde & _).
    exists ds, de. rewrite Hs, He. simpl. auto.
  - unfold _validate_date_consistency.
    destruct (policy_start_date data) as [s|] eqn:Hs.
    2:{ rewrite (date_body_missing data) by (left; exact Hs).
        eexists; repeat split. }
    destruct (policy_end_date data) as [e|] eqn:He.
    2:{ rewrite (date_body_missing data) by (right; exact He).
        eexists; repeat split. }
    destruct (Hstart s eq_refl) as (ds & Hds & _).
    destruct (Hend e eq_refl) as (de & Hde & _).
    rewrite (date_body_parsed data s e ds de Hs He Hds Hde).
    destruct (Datetime.ltb ds de); eexists; repeat split.
Qed.

Ltac rule_result :=
  eexists; split; [reflexivity|];
  split; [reflexivity|]; split; [auto|]; simpl; discriminate.

Lemma date_consistency_total self data :
  exists r, _validate_date_consistency self data = Ok r
            /\ well_formed_result "Date Consistency" r.
Proof.
  unfold _validate_date_consistency, date_consistency_body.
  destruct (policy_start_date data) as [s|]; simpl; [|rule_result].
  destruct (Str.truthy s); simpl; [|rule_result].
  destruct (policy_end_date data) as [e|]; simpl; [|rule_result].
  destruct (Str.truthy e); simpl; [|rule_result].
  destruct (Datetime.strptime s) as [ds|x]; simpl.
  - destruct (Datetime.strptime e) as [de|x]; simpl.
    + destruct (Datetime.gtb de ds); rule_result.
    + destruct (is_ValueError x); rule_result.
  - destruct (is_ValueError x); rule_result.
Qed.

Lemma insured_value_total self data :
  exists r, _validate_insured_value self data = Ok r
            /\ well_formed_result "Value Check" r.
Proof.
  unfold _validate_insured_value.
  destruct (insured_value data) as [v|]; simpl; [|rule_result].
  destruct (float_gt0 v); rule_result.
Qed.

Lemma vessel_name_total self data :
  exists r, _validate_vessel_name self data = Ok r
            /\ well_formed_result "Vessel Name Match" r.
Proof.
  unfold _validate_vessel_name.
  destruct (vessel_name data) as [n|]; simpl; [|rule_result].
  destruct (Str.truthy n); simpl; [|rule_result].
  case_decide; rule_result.
Qed.

Lemma completeness_total self data :
  exists r, _validate_completeness self data = Ok r
            /\ well_formed_result "Completeness Check" r.
Proof.
  unfold _validate_completeness.
  destruct (policy_number data) as [n|]; simpl; [|rule_result].
  destruct (Str.truthy n); simpl; [|rule_result].
  destruct (Str.truthy (Str.strip n)); rule_result.
Qed.

(** X7.  For all calendar dates written as [YYYY-MM-DD], the Date
    Consistency rule answers PASS when the end date is a later day than
    the start date, and FAIL when it is the same day or an earlier one. *)
Theorem date_rule_on_calendar_dates (self : DocumentValidator)
    (data : ExtractedData) (start_date end_date : Datetime.datetime) :
  Datetime.calendar_date start_date ->
  Datetime.calendar_date end_date ->
  policy_start_date data = Some (Datetime.isoformat start_date) ->
  policy_end_date data = Some (Datetime.isoformat end_date) ->
  exists r,
    _validate_date_consistency self data = Ok r
    /\ rule r = "Date Consistency"
    /\ (Datetime.toordinal start_date < Datetime.toordinal end_date ->
        status r = "PASS")
    /\ (Datetime.toordinal end_date <= Datetime.toordinal start_date ->
        status r = "FAIL").
Proof.
  intros Cs Ce Hs He.
  pose proof (strptime_isoformat _ Cs) as Ps.
  pose proof (strptime_isoformat _ Ce) as Pe.
  pose proof (toordinal_order start_date end_date Cs Ce) as Hord.
  unfold _validate_date_consistency.
  rewrite (date_body_parsed data _ _ _ _ Hs He Ps Pe).
  destruct (Datetime.ltb start_date end_date) eqn:Hlt; simpl.
  - apply datetime_ltb_lt in Hlt. apply Hord in Hlt.
    eexists. split; [reflexivity|]. split; [reflexivity|]. simpl.
    split; [auto|lia].
  - assert (~ Datetime.lt start_date end_date) as Hn
        by (rewrite <- datetime_ltb_lt; congruence).
    eexists. split; [reflexivity|]. split; [reflexivity|]. simpl.
    split; [|auto]. intros Hc. apply Hord in Hc. contradiction.
Qed.

(** [validate] runs the four rules in order and collects what they
    return. *)
Lemma validate_collects self data r1 r2 r3 r4 :
  _validate_date_consistency self data = Ok r1 ->
  _validate_insured_value self data = Ok r2 ->
  _validate_vessel_name self data = Ok r3 ->
  _validate_completeness self data = Ok r4 ->
  validate self data = Ok [r1; r2; r3; r4].
Proof.
  intros E1 E2 E3 E4. unfold validate. rewrite E1, E2, E3, E4. reflexivity.
Qed.

(** C2.  [validate] returns, for every record and every approved
    set, without raising: its value is the list of exactly four
    results, in the order Date Consistency, Value Check, Vessel Name
    Match, Completeness Check; each is what its own rule returns, has
    status [PASS] or [FAIL] and a message that is not empty. *)
Theorem validate_total (self : DocumentValidator) (data : ExtractedData) :
  exists r1 r2 r3 r4,
    validate self data = Ok [r1; r2; r3; r4]
    /\ _validate_date_consistency self data = Ok r1
    /\ _validate_insured_value self data = Ok r2
    /\ _validate_vessel_name self data = Ok r3
    /\ _validate_completeness self data = Ok r4
    /\ well_formed_result "Date Consistency" r1
    /\ well_formed_result "Value Check" r2
    /\ well_formed_result "Vessel Name Match" r3
    /\ well_formed_result "Completeness Check" r4.
Proof.
  destruct (date_consistency_total self data) as (r1 & E1 & W1).
  destruct (insured_value_total self data) as (r2 & E2 & W2).
  destruct (vessel_name_total self data) as (r3 & E3 & W3).
  destruct (completeness_total self data) as (r4 & E4 & W4).
  exists r1, r2, r3, r4.
  rewrite (validate_collects self data r1 r2 r3 r4 E1 E2 E3 E4). tauto.
Qed.

Lemma float_gt0_positive v : float_gt0 v = true <-> positive_float v.
Proof.
  destruct v as [[|]|[|]| |[|] m e]; cbn; intuition discriminate.
Qed.

(** C7.  The Value Check rule answers PASS exactly when
    [insured_value] is present and greater than zero (a positive
    finite float or plus infinity); an absent value gives FAIL with
    [Insured value is missing.]; a present value that is not greater
    than zero (zero, negative, not a number) gives FAIL with a message
    that cites the value. *)
Theorem value_check_spec (self : DocumentValidator) (data : ExtractedData) :
  exists r,
    _validate_insured_value self data = Ok r
    /\ rule r = "Value Check"
    /\ (status r = "PASS"
        <-> exists v, insured_value data = Some v /\ positive_float v)
    /\ (insured_value data = None ->
        status r = "FAIL" /\ message r = "Insured value is missing.")
    /\ (forall v, insured_value data = Some v -> ~ positive_float v ->
        status r = "FAIL"
        /\ message r
           = "Insured value (" +:+ float_str v
             +:+ ") must be greater than 0.").
Proof.
  unfold _validate_insured_value.
  destruct (insured_value data) as [v|]; simpl.
  - destruct (float_gt0 v) eqn:Hv; simpl.
    + apply float_gt0_positive in Hv.
      eexists; split; [reflexivity|]; split; [reflexivity|]; simpl.
      split; [split; [eauto|reflexivity]|].
      split; [discriminate|].
      intros v' [= <-] Hn. contradiction.
    + assert (~ positive_float v) as Hn
          by (rewrite <- float_gt0_positive; congruence).
      eexists; split; [reflexivity|]; split; [reflexivity|]; simpl.
      split; [split; [discriminate|]|].
      * intros (v' & [= <-] & Hp). contradiction.
      * split; [discriminate|]. intros v' [= <-] _. auto.
  - eexists; split; [reflexivity|]; split; [reflexivity|]; simpl.
    split; [split; [discriminate|]|].
    + intros (v' & Hv' & _). discriminate.
    + split; [auto|]. intros v' Hv'. discriminate.
Qed.

(** C8.  The Completeness Check rule answers PASS exactly when
    [policy_number] is present and is not empty once its white space
    is stripped; otherwise it answers FAIL with
    [Policy number is missing or empty.] *)
Theorem completeness_check_spec (self : DocumentValidator)
    (data : ExtractedData) :
  exists r,
    _validate_completeness self data = Ok r
    /\ rule r = "Completeness Check"
    /\ (status r = "PASS"
        <-> exists s, policy_number data = Some s
                      /\ Str.strip s <> EmptyString)
    /\ (status r <> "PASS" ->
        status r = "FAIL"
        /\ message r = "Policy number is missing or empty.").
Proof.
  unfold _validate_completeness.
  destruct (policy_number data) as [n|]; simpl.
  - destruct (Str.truthy n) eqn:Hn; simpl.
    + destruct (Str.truthy (Str.strip n)) eqn:Hs; simpl.
      * apply truthy_true_iff in Hs.
        eexists; split; [reflexivity|]; split; [reflexivity|]; simpl.
        split; [split; [eauto|reflexivity]|]. intros Hc. now elim Hc.
      * apply truthy_false_iff in Hs.
        eexists; split; [reflexivity|]; split; [reflexivity|]; simpl.
        split; [split; [discriminate|]|auto].
        intros (s & [= <-] & Hne). contradiction.
    + apply truthy_false_iff in Hn. subst n.
      eexists; split; [reflexivity|]; split; [reflexivity|]; simpl.
      split; [split; [discriminate|]|auto].
      intros (s & [= <-] & Hne). now elim Hne.
  - eexists; split; [reflexivity|]; split; [reflexivity|]; simpl.
    split; [split; [discriminate|]|auto].
    intros (s & Hs & _). discriminate.
Qed.

Lemma lower_in_lowered (vessels : gset string) (x : string) :
  x ∈ (set_map Str.lower vessels : gset string)
  <-> exists v, v ∈ vessels /\ x = Str.lower v.
Proof.
  rewrite elem_of_map. split; intros (v & A & B); exists v; auto.
Qed.

(** C6, amended.  The Vessel Name Match rule answers FAIL with
    [Vessel name is missing.] when [vessel_name] is absent or is the
    empty string; for any other name it answers PASS exactly when the
    lower-cased name is the lower-casing of a member of the approved
    set, and both the PASS and the FAIL message cite the name. *)
Theorem vessel_name_match_spec (self : DocumentValidator)
    (data : ExtractedData) :
  exists r,
    _validate_vessel_name self data = Ok r
    /\ rule r = "Vessel Name Match"
    /\ (vessel_name data = None \/ vessel_name data = Some EmptyString ->
        status r = "FAIL" /\ message r = "Vessel name is missing.")
    /\ (forall n, vessel_name data = Some n -> n <> EmptyString ->
        (status r = "PASS"
         <-> exists v, v ∈ valid_vessels self /\ Str.lower n = Str.lower v)
        /\ (status r = "PASS" ->
            message r = "Vessel '" +:+ n +:+ "' is on the approved list.")
        /\ (status r <> "PASS" ->
            status r = "FAIL"
            /\ message r
               = "Vessel '" +:+ n +:+ "' is not on the approved list.")).
Proof.
  unfold _validate_vessel_name.
  destruct (vessel_name data) as [n|]; simpl.
  - destruct (Str.truthy n) eqn:Hn; simpl.
    + case_decide as Hin; rewrite lower_in_lowered in Hin;
        (eexists; split; [reflexivity|]; split; [reflexivity|]; simpl;
         split; [intros [?|[= ->]]; discriminate|]);
        intros n' [= <-] _.
      * split; [tauto|]. split; [auto|]. intros Hc. now elim Hc.
      * split; [split; [discriminate|tauto]|].
        split; [discriminate|auto].
    + apply truthy_false_iff in Hn. subst n.
      eexists; split; [reflexivity|]; split; [reflexivity|]; simpl.
      split; [auto|]. intros n' [= <-] Hne. now elim Hne.
  - eexists; split; [reflexivity|]; split; [reflexivity|]; simpl.
    split; [auto|]. intros n' Hn'. discriminate.
Qed.

(** The vessel rule on a name that is present and not empty, and on a
    name that is missing. *)
Lemma vessel_rule_run self data n :
  vessel_name data = Some n -> n <> EmptyString ->
  _validate_vessel_name self data
  = if decide (Str.lower n
               ∈ (set_map Str.lower (valid_vessels self) : gset string))
    then Ok (mkValidationResult "Vessel Name Match" "PASS"
               ("Vessel '" +:+ n +:+ "' is on the approved list."))
    else Ok (mkValidationResult "Vessel Name Match" "FAIL"
               ("Vessel '" +:+ n +:+ "' is not on the approved list.")).
Proof.
  intros Hn Hne. unfold _validate_vessel_name. rewrite Hn. simpl.
  apply truthy_true_iff in Hne. rewrite Hne. simpl.
  case_decide; reflexivity.
Qed.

Lemma vessel_rule_missing self data :
  vessel_name data = None \/ vessel_name data = Some EmptyString ->
  _validate_vessel_name self data
  = Ok (mkValidationResult "Vessel Name Match" "FAIL"
          "Vessel name is missing.").
Proof.
  intros [E | E]; unfold _validate_vessel_name; rewrite E; reflexivity.
Qed.

(** When each rule answers PASS, on any record. *)
Lemma date_rule_pass_iff self data r :
  _validate_date_consistency self data = Ok r ->
  status r = "PASS" <-> dates_in_order data.
Proof.
  unfold dates_in_order.
  destruct (policy_start_date data) as [s|] eqn:Hs.
  2:{ unfold _validate_date_consistency.
      rewrite (date_body_missing data) by auto. intros [= <-]. simpl.
      split; [discriminate|]. intros (s & e & ds & de & Hc & _). discriminate. }
  destruct (policy_end_date data) as [e|] eqn:He.
  2:{ unfold _validate_date_consistency.
      rewrite (date_body_missing data) by auto. intros [= <-]. simpl.
      split; [discriminate|]. intros (s' & e & ds & de & _ & Hc & _).
      discriminate. }
  destruct (Datetime.strptime s) as [ds|x] eqn:Ps.
  - destruct (Datetime.strptime e) as [de|x] eqn:Pe.
    + unfold _validate_date_consistency.
      rewrite (date_body_parsed data s e ds de Hs He Ps Pe).
      destruct (Datetime.ltb ds de) eqn:Hlt; intros [= <-]; simpl.
      * apply datetime_ltb_lt in Hlt. split; [intros _|reflexivity].
        exists s, e, ds, de. auto.
      * split; [discriminate|].
        intros (s' & e' & ds' & de' & [= <-] & [= <-] & E1 & E2 & Hc).
        rewrite Ps in E1. rewrite Pe in E2.
        injection E1 as <-. injection E2 as <-.
        apply datetime_ltb_lt in Hc. congruence.
    + intros Hr. split.
      * unfold _validate_date_consistency, date_consistency_body in Hr.
        rewrite Hs, He in Hr. simpl in Hr.
        destruct (Str.truthy s); simpl in Hr;
          [|injection Hr as <-; discriminate].
        destruct (Str.truthy e); simpl in Hr;
          [|injection Hr as <-; discriminate].
        rewrite Ps in Hr. simpl in Hr. rewrite Pe in Hr. simpl in Hr.
        destruct (is_ValueError x); injection Hr as <-; discriminate.
      * intros (s' & e' & ds' & de' & _ & [= <-] & _ & E2 & _). congruence.
  - intros Hr. split.
    + unfold _validate_date_consistency, date_consistency_body in Hr.
      rewrite Hs, He in Hr. simpl in Hr.
      destruct (Str.truthy s); simpl in Hr;
        [|injection Hr as <-; discriminate].
      destruct (Str.truthy e); simpl in Hr;
        [|injection Hr as <-; discriminate].
      rewrite Ps in Hr. simpl in Hr.
      destruct (is_ValueError x); injection Hr as <-; discriminate.
    + intros (s' & e' & ds' & de' & [= <-] & _ & E1 & _). congruence.
Qed.

Lemma value_rule_pass_iff self data r :
  _validate_insured_value self data = Ok r ->
  status r = "PASS"
  <-> exists v, insured_value data = Some v /\ positive_float v.
Proof.
  unfold _validate_insured_value.
  destruct (insured_value data) as [v|]; simpl.
  - destruct (float_gt0 v) eqn:Hv; intros [= <-]; simpl.
    + apply float_gt0_positive in Hv. split; eauto.
    + split; [discriminate|]. intros (v' & [= <-] & Hp).
      apply float_gt0_positive in Hp. congruence.
  - intros [= <-]. simpl. split; [discriminate|].
    intros (v & Hc & _). discriminate.
Qed.

Lemma vessel_rule_pass_iff self data r :
  _validate_vessel_name self data = Ok r ->
  status r = "PASS" <-> vessel_approved self data.
Proof.
  unfold vessel_approved.
  destruct (vessel_name data) as [n|] eqn:Hn.
  - destruct (decide (n = EmptyString)) as [-> | Hne].
    + rewrite (vessel_rule_missing self data) by auto.
      intros [= <-]. simpl. split; [discriminate|].
      intros (n & v & [= <-] & Hc & _). now elim Hc.
    + rewrite (vessel_rule_run self data n Hn Hne).
      case_decide as Hin; rewrite lower_in_lowered in Hin;
        intros [= <-]; simpl.
      * split; [intros _|reflexivity].
        destruct Hin as (v & Hv & E). exists n, v. auto.
      * split; [discriminate|].
        intros (n' & v & [= <-] & _ & Hv & E). elim Hin. eauto.
  - rewrite (vessel_rule_missing self data) by auto.
    intros [= <-]. simpl. split; [discriminate|].
    intros (n & v & Hc & _). discriminate.
Qed.

Lemma completeness_rule_pass_iff self data r :
  _validate_completeness self data = Ok r ->
  status r = "PASS"
  <-> exists p, policy_number data = Some p /\ Str.strip p <> EmptyString.
Proof.
  unfold _validate_completeness.
  destruct (policy_number data) as [p|]; simpl.
  - destruct (Str.truthy p) eqn:Hp; simpl.
    + destruct (Str.truthy (Str.strip p)) eqn:Hs; intros [= <-]; simpl.
      * apply truthy_true_iff in Hs. split; eauto.
      * apply truthy_false_iff in Hs. split; [discriminate|].
        intros (p' & [= <-] & Hne). contradiction.
    + apply truthy_false_iff in Hp. subst p. intros [= <-]. simpl.
      split; [discriminate|]. intros (p' & [= <-] & Hne). now elim Hne.
  - intros [= <-]. simpl. split; [discriminate|].
    intros (p & Hc & _). discriminate.
Qed.

(** [validate] returns, and what it returns is made of the results of
    the four rules. *)
Lemma validate_Ok self data : exists results, validate self data = Ok results.
Proof.
  destruct (date_consistency_total self data) as (r1 & E1 & _).
  destruct (insured_value_total self data) as (r2 & E2 & _).
  destruct (vessel_name_total self data) as (r3 & E3 & _).
  destruct (completeness_total self data) as (r4 & E4 & _).
  eexists. apply (validate_collects self data r1 r2 r3 r4 E1 E2 E3 E4).
Qed.

Lemma validate_inv self data results :
  validate self data = Ok results ->
  exists r1 r2 r3 r4,
    results = [r1; r2; r3; r4]
    /\ _validate_date_consistency self data = Ok r1
    /\ _validate_insured_value self data = Ok r2
    /\ _validate_vessel_name self data = Ok r3
    /\ _validate_completeness self data = Ok r4.
Proof.
  destruct (date_consistency_total self data) as (r1 & E1 & _).
  destruct (insured_value_total self data) as (r2 & E2 & _).
  destruct (vessel_name_total self data) as (r3 & E3 & _).
  destruct (completeness_total self data) as (r4 & E4 & _).
  rewrite (validate_collects self data r1 r2 r3 r4 E1 E2 E3 E4).
  intros [= <-]. exists r1, r2, r3, r4. auto.
Qed.

(** X5.  On any record, invariant or not, the four results of
    [validate] are all PASS exactly when both dates are present and
    read by [strptime] with the end date the later one, the insured
    value is present and greater than zero, the vessel name is present,
    not empty and on the approved list up to letter case, and the
    policy number is present and not blank. *)
Theorem validate_all_pass_iff (self : DocumentValidator)
    (data : ExtractedData) :
  exists results,
    validate self data = Ok results
    /\ (all_pass results <-> fully_valid self data).
Proof.
  destruct (validate_Ok self data) as [results Hv]. exists results.
  split; [exact Hv|].
  apply validate_inv in Hv as (r1 & r2 & r3 & r4 & -> & E1 & E2 & E3 & E4).
  unfold all_pass, fully_valid.
  rewrite <- (date_rule_pass_iff self data r1 E1),
          <- (value_rule_pass_iff self data r2 E2),
          <- (vessel_rule_pass_iff self data r3 E3),
          <- (completeness_rule_pass_iff self data r4 E4).
  rewrite !Forall_cons. rewrite Forall_nil. tauto.
Qed.

Lemma datetime_lt_asym a b : Datetime.lt a b -> ~ Datetime.lt b a.
Proof. unfold Datetime.lt. lia. Qed.

(** X6.  The Date Consistency rule cannot pass both ways: when it
    answers PASS on a record, it answers FAIL on the record whose start
    and end dates are exchanged. *)
Theorem date_rule_swap (self : DocumentValidator) (data data' : ExtractedData)
    (r : ValidationResult) :
  policy_start_date data' = policy_end_date data ->
  policy_end_date data' = policy_start_date data ->
  _validate_date_consistency self data = Ok r ->
  status r = "PASS" ->
  exists r',
    _validate_date_consistency self data' = Ok r' /\ status r' = "FAIL".
Proof.
  intros Hs He Hr Hp.
  apply (date_rule_pass_iff self data r Hr) in Hp
    as (s & e & ds & de & Es & Ee & Ps & Pe & Hlt).
  rewrite Ee in Hs. rewrite Es in He.
  unfold _validate_date_consistency.
  rewrite (date_body_parsed data' e s de ds Hs He Pe Ps).
  destruct (Datetime.ltb de ds) eqn:Hb.
  - apply datetime_ltb_lt in Hb. now apply datetime_lt_asym in Hb.
  - eexists. split; reflexivity.
Qed.

(** X9.  The Vessel Name Match rule sees names only up to letter case:
    two names with the same lower-casing, checked against approved sets
    with the same lower-cased members, get the same status. *)
Theorem vessel_rule_case_insensitive (self self' : DocumentValidator)
    (data data' : ExtractedData) (n n' : string) :
  vessel_name data = Some n ->
  vessel_name data' = Some n' ->
  Str.lower n = Str.lower n' ->
  (set_map Str.lower (valid_vessels self) : gset string)
  = set_map Str.lower (valid_vessels self') ->
  exists r r',
    _validate_vessel_name self data = Ok r
    /\ _validate_vessel_name self' data' = Ok r'
    /\ status r = status r'.
Proof.
  intros Hn Hn' Hl Hset.
  destruct (decide (n = EmptyString)) as [-> | Hne].
  - assert (n' = EmptyString) as -> by (destruct n'; [reflexivity|discriminate]).
    rewrite !vessel_rule_missing by auto. eexists _, _. repeat split.
  - assert (n' <> EmptyString) as Hne'.
    { intros ->. destruct n; [now elim Hne|discriminate]. }
    rewrite (vessel_rule_run self data n Hn Hne),
            (vessel_rule_run self' data' n' Hn' Hne'), Hl, Hset.
    case_decide; eexists _, _; repeat split.
Qed.

(** X10.  The rules are independent: run on two records (and two
    validators), [validate] gives the same Date Consistency result when
    the two dates agree, the same Value Check result when the insured
    values agree, the same Vessel Name Match result when the vessel
    names and the approved sets agree, and the same Completeness Check
    result when the policy numbers agree, whatever the other fields
    are. *)
Theorem rules_independent (self self' : DocumentValidator)
    (data data' : ExtractedData) :
  exists r1 r2 r3 r4 r1' r2' r3' r4',
    validate self data = Ok [r1; r2; r3; r4]
    /\ validate self' data' = Ok [r1'; r2'; r3'; r4']
    /\ (policy_start_date data = policy_start_date data' ->
        policy_end_date data = policy_end_date data' -> r1 = r1')
    /\ (insured_value data = insured_value data' -> r2 = r2')
    /\ (vessel_name data = vessel_name data' ->
        valid_vessels self = valid_vessels self' -> r3 = r3')
    /\ (policy_number data = policy_number data' -> r4 = r4').
Proof.
  destruct (validate_Ok self data) as [results Hv].
  destruct (validate_Ok self' data') as [results' Hv'].
  rewrite Hv, Hv'.
  apply validate_inv in Hv as (r1 & r2 & r3 & r4 & -> & E1 & E2 & E3 & E4).
  apply validate_inv in Hv'
    as (r1' & r2' & r3' & r4' & -> & E1' & E2' & E3' & E4').
  exists r1, r2, r3, r4, r1', r2', r3', r4'.
  do 2 (split; [reflexivity|]).
  split; [|split; [|split]].
  - intros Hs He.
    unfold _validate_date_consistency, date_consistency_body in E1, E1'.
    rewrite Hs, He in E1. congruence.
  - intros Hi. unfold _validate_insured_value in E2, E2'.
    rewrite Hi in E2. congruence.
  - intros Hn Hvs. unfold _validate_vessel_name in E3, E3'.
    rewrite Hn, Hvs in E3. congruence.
  - intros Hp. unfold _validate_completeness in E4, E4'.
    rewrite Hp in E4. congruence.
Qed.

End Rules.


(* ===================================================================== *)
(** * Construction of [ExtractedData] *)
(* ===================================================================== *)

Section Construction.
Context `{Runtime}.

Lemma validate_date_format_ok v w :
  validate_date_format v = Ok w -> w = v /\ date_field_ok v.
Proof.
  destruct v as [s|]; simpl.
  - destruct (Datetime.strptime s) as [dt|e] eqn:Hs; simpl.
    + intros [= <-]. split; [reflexivity|].
      intros s' [= <-]. exists dt. split; [exact Hs|].
      now apply strptime_calendar in Hs.
    + destruct (is_ValueError e); discriminate.
  - intros [= <-]. split; [reflexivity|]. intros s' Hs'. discriminate.
Qed.

Lemma validate_date_format_idem v :
  date_field_ok v -> validate_date_format v = Ok v.
Proof.
  destruct v as [s|]; simpl; [|reflexivity].
  intros Hv. destruct (Hv s eq_refl) as (dt & -> & _). reflexivity.
Qed.

Lemma date_field_result kwargs name w :
  pydantic_field kwargs name pydantic_str validate_date_format = Ok w ->
  date_field_ok w.
Proof.
  unfold pydantic_field. destruct (dict_get name kwargs) as [v|].
  - destruct v; simpl; try discriminate.
    + intros [= <-]. intros s Hs. discriminate.
    + intros Hw.
      apply (validate_date_format_ok (Some s) w) in Hw as [-> Hok].
      exact Hok.
  - intros [= <-]. intros s Hs. discriminate.
Qed.

Lemma text_field_malformed kwargs name v :
  dict_get name kwargs = Some v -> text_malformed v ->
  exists e, pydantic_field kwargs name pydantic_str Ok = Raise e.
Proof.
  unfold pydantic_field. intros -> Hv.
  destruct v; simpl in *; try contradiction; eexists; reflexivity.
Qed.

Lemma date_field_malformed kwargs name v :
  dict_get name kwargs = Some v -> date_malformed v ->
  exists e,
    pydantic_field kwargs name pydantic_str validate_date_format = Raise e.
Proof.
  unfold pydantic_field. intros -> Hv.
  destruct v; simpl in *; try contradiction; try (eexists; reflexivity).
  destruct Hv as [e ->]. simpl.
  destruct (is_ValueError e); eexists; reflexivity.
Qed.

Lemma number_field_malformed kwargs name v :
  dict_get name kwargs = Some v -> number_malformed v ->
  exists e,
    pydantic_field kwargs name pydantic_float validate_insured_value = Raise e.
Proof.
  unfold pydantic_field. intros -> Hv.
  destruct v; simpl in *; try contradiction; try (eexists; reflexivity);
    rewrite Hv; eexists; reflexivity.
Qed.

(** The constructor succeeds exactly when every field does, and then
    holds the field values. *)
Lemma ExtractedData_init_Ok kwargs data :
  ExtractedData_init kwargs = Ok data <->
  pydantic_field kwargs "policy_number" pydantic_str Ok
    = Ok (policy_number data)
  /\ pydantic_field kwargs "vessel_name" pydantic_str Ok
     = Ok (vessel_name data)
  /\ pydantic_field kwargs "policy_start_date" pydantic_str
       validate_date_format = Ok (policy_start_date data)
  /\ pydantic_field kwargs "policy_end_date" pydantic_str
       validate_date_format = Ok (policy_end_date data)
  /\ pydantic_field kwargs "insured_value" pydantic_float
       validate_insured_value = Ok (insured_value data).
Proof.
  unfold ExtractedData_init. cbv zeta.
  destruct (pydantic_field kwargs "policy_number" pydantic_str Ok);
  destruct (pydantic_field kwargs "vessel_name" pydantic_str Ok);
  destruct (pydantic_field kwargs "policy_start_date" pydantic_str
              validate_date_format);
  destruct (pydantic_field kwargs "policy_end_date" pydantic_str
              validate_date_format);
  destruct (pydantic_field kwargs "insured_value" pydantic_float
              validate_insured_value);
  (split;
   [ intros Hd; try discriminate Hd; injection Hd as <-; simpl; tauto
   | intros (E1 & E2 & E3 & E4 & E5); try discriminate;
     injection E1 as ->; injection E2 as ->; injection E3 as ->;
     injection E4 as ->; injection E5 as ->; destruct data; reflexivity ]).
Qed.

(** Whatever the constructor raises is a [ValidationError]. *)
Lemma ExtractedData_init_Raise kwargs e :
  ExtractedData_init kwargs = Raise e -> exn_cls e = ValidationError.
Proof.
  unfold ExtractedData_init. cbv zeta.
  destruct (pydantic_field kwargs "policy_number" pydantic_str Ok);
  destruct (pydantic_field kwargs "vessel_name" pydantic_str Ok);
  destruct (pydantic_field kwargs "policy_start_date" pydantic_str
              validate_date_format);
  destruct (pydantic_field kwargs "policy_end_date" pydantic_str
              validate_date_format);
  destruct (pydantic_field kwargs "insured_value" pydantic_float
              validate_insured_value);
  intros Hd; try discriminate Hd; injection Hd as <-; reflexivity.
Qed.

Lemma malformed_rejected kwargs :
  has_malformed_field kwargs ->
  exists e, ExtractedData_init kwargs = Raise e
            /\ exn_cls e = ValidationError.
Proof.
  intros Hm.
  destruct (ExtractedData_init kwargs) as [data|e] eqn:Hinit.
  - exfalso. apply ExtractedData_init_Ok in Hinit
      as (E1 & E2 & E3 & E4 & E5).
    destruct Hm as [(v & Hv & Hb)|[(v & Hv & Hb)|[(v & Hv & Hb)
                   |[(v & Hv & Hb)|(v & Hv & Hb)]]]].
    + destruct (text_field_malformed _ _ _ Hv Hb) as [e He]. congruence.
    + destruct (text_field_malformed _ _ _ Hv Hb) as [e He]. congruence.
    + destruct (date_field_malformed _ _ _ Hv Hb) as [e He]. congruence.
    + destruct (date_field_malformed _ _ _ Hv Hb) as [e He]. congruence.
    + destruct (number_field_malformed _ _ _ Hv Hb) as [e He]. congruence.
  - exists e. split; [reflexivity|].
    now apply ExtractedData_init_Raise in Hinit.
Qed.

(** X8.  The date validator of the model accepts every date of the
    calendar written as [YYYY-MM-DD], and returns it unchanged. *)
Theorem validate_date_format_accepts_iso (d : Datetime.datetime) :
  Datetime.calendar_date d ->
  validate_date_format (Some (Datetime.isoformat d))
  = Ok (Some (Datetime.isoformat d)).
Proof.
  intros Hd. apply validate_date_format_idem.
  intros s [= <-]. exists d. split; [|exact Hd].
  now apply strptime_isoformat.
Qed.

Lemma ExtractedData_init_inv kwargs data :
  ExtractedData_init kwargs = Ok data -> ExtractedData_inv data.
Proof.
  intros Hinit. apply ExtractedData_init_Ok in Hinit
    as (_ & _ & E3 & E4 & _).
  split; eapply date_field_result; eassumption.
Qed.

(** A field that raises was given a malformed value. *)
Lemma text_field_raises kwargs name e :
  pydantic_field kwargs name pydantic_str Ok = Raise e ->
  exists v, dict_get name kwargs = Some v /\ text_malformed v.
Proof.
  unfold pydantic_field.
  destruct (dict_get name kwargs) as [v|]; [|discriminate].
  intros Hr. exists v. split; [reflexivity|].
  destruct v; simpl in *; try exact I; discriminate.
Qed.

Lemma date_field_raises kwargs name e :
  pydantic_field kwargs name pydantic_str validate_date_format = Raise e ->
  exists v, dict_get name kwargs = Some v /\ date_malformed v.
Proof.
  unfold pydantic_field.
  destruct (dict_get name kwargs) as [v|]; [|discriminate].
  intros Hr. exists v. split; [reflexivity|].
  destruct v; simpl in *; try exact I; try discriminate.
  destruct (Datetime.strptime s) as [dt|x]; [discriminate|]. eauto.
Qed.

Lemma number_field_raises kwargs name e :
  pydantic_field kwargs name pydantic_float validate_insured_value = Raise e ->
  exists v, dict_get name kwargs = Some v /\ number_malformed v.
Proof.
  unfold pydantic_field.
  destruct (dict_get name kwargs) as [v|]; [|discriminate].
  intros Hr. exists v. split; [reflexivity|].
  destruct v; simpl in *; try exact I; try discriminate.
  - destruct (float_of_int n); [discriminate|reflexivity].
  - destruct (str_as_float s); [discriminate|reflexivity].
Qed.

(** X11.  The constructor of [ExtractedData] raises exactly on the
    keywords that hold a present but malformed field: keywords whose
    fields are each missing, [None] or well formed are accepted,
    whatever other keys they carry. *)
Theorem ExtractedData_init_rejects_iff_malformed
    (kwargs : list (string * pyval)) :
  (exists e, ExtractedData_init kwargs = Raise e)
  <-> has_malformed_field kwargs.
Proof.
  split.
  - intros [e He]. unfold has_malformed_field.
    destruct (pydantic_field kwargs "policy_number" pydantic_str Ok)
      as [a|x] eqn:E1; [|left; eapply text_field_raises; eassumption].
    destruct (pydantic_field kwargs "vessel_name" pydantic_str Ok)
      as [b|x] eqn:E2;
      [|right; left; eapply text_field_raises; eassumption].
    destruct (pydantic_field kwargs "policy_start_date" pydantic_str
                validate_date_format)
      as [c|x] eqn:E3;
      [|right; right; left; eapply date_field_raises; eassumption].
    destruct (pydantic_field kwargs "policy_end_date" pydantic_str
                validate_date_format)
      as [d|x] eqn:E4;
      [|right; right; right; left; eapply date_field_raises; eassumption].
    destruct (pydantic_field kwargs "insured_value" pydantic_float
                validate_insured_value)
      as [f|x] eqn:E5;
      [|right; right; right; right; eapply number_field_raises; eassumption].
    exfalso.
    assert (ExtractedData_init kwargs = Ok (mkExtractedData a b c d f)) as Hok
      by (apply ExtractedData_init_Ok; simpl; auto).
    congruence.
  - intros Hm. destruct (malformed_rejected kwargs Hm) as (e & He & _). eauto.
Qed.

End Construction.

(* ===================================================================== *)
(** * The extractor and the route *)
(* ===================================================================== *)

Section Pipeline.
Context `{Runtime}.

Lemma extract_fields_run ai document_text :
  extract_fields ai document_text
  = mkIO [GenerateContent (_build_prompt document_text)]
      (extraction_outcome ai document_text).
Proof.
  unfold extract_fields, extraction_outcome, call_generate_content.
  generalize (_build_prompt document_text) as prompt. intros prompt.
  unfold io_try, mbind, IO_bind, lift. simpl.
  destruct (generate_content ai prompt) as [response|e]; simpl.
  - destruct (nonempty_text response) as [[t|]|e]; simpl; [|reflexivity|].
    + destruct (json_loads t) as [obj|e]; simpl.
      * destruct (ExtractedData_from obj) as [data|e]; simpl; reflexivity.
      * destruct (is_JSONDecodeError e) eqn:Hj; simpl; [reflexivity|].
        destruct (is_ValueError e); reflexivity.
    + destruct (is_ValueError e); reflexivity.
  - destruct (is_ValueError e); reflexivity.
Qed.

(** The extractor raises nothing but [ValueError]s. *)
Lemma extraction_raises_ValueError ai document_text e :
  extraction_outcome ai document_text = Raise e -> is_ValueError e = true.
Proof.
  unfold extraction_outcome.
  destruct (generate_content ai _) as [response|x].
  - destruct (nonempty_text response) as [[t|]|x].
    + destruct (json_loads t) as [obj|x].
      * destruct (ExtractedData_from obj); [discriminate|].
        intros [= <-]. reflexivity.
      * destruct (is_JSONDecodeError x); [intros [= <-]; reflexivity|].
        destruct (is_ValueError x) eqn:Hx; intros [= <-]; auto.
    + intros [= <-]. reflexivity.
    + destruct (is_ValueError x) eqn:Hx; intros [= <-]; auto.
  - destruct (is_ValueError x) eqn:Hx; intros [= <-]; auto.
Qed.

(** The handler on an initialised application and a text that is not
    blank. *)
Lemma validate_document_run app ai v request :
  ai_extractor app = Some ai ->
  validator app = Some v ->
  nonblank (text request) = true ->
  validate_document app request
  = match extraction_outcome ai (text request) with
    | Raise e =>
        mkIO [GenerateContent (_build_prompt (text request))]
          (raise (HTTPException 400) (exn_str e))
    | Ok data =>
        mkIO [GenerateContent (_build_prompt (text request));
              RuleValidator data]
          (match validate v data with
           | Ok results => Ok (mkValidationResponse data results)
           | Raise e =>
               if is_ValueError e then
                 raise (HTTPException 400) (exn_str e)
               else
                 raise (HTTPException 500)
                   ("Internal server error: " +:+ exn_str e)
           end)
    end.
Proof.
  intros Hai Hv Hnb. unfold validate_document. rewrite Hai, Hv.
  unfold nonblank in Hnb. apply andb_true_iff in Hnb as [-> ->]. simpl.
  rewrite extract_fields_run.
  generalize (_build_prompt (text request)) as prompt. intros prompt.
  unfold io_try, mbind, IO_bind, lift, call_validate. simpl.
  destruct (extraction_outcome ai (text request)) as [data|e] eqn:He; simpl.
  - destruct (validate v data) as [results|e]; simpl; [reflexivity|].
    destruct (is_ValueError e); reflexivity.
  - rewrite (extraction_raises_ValueError _ _ _ He). reflexivity.
Qed.

Lemma nonblank_all_space s : nonblank s = true <-> all_space s = false.
Proof.
  unfold nonblank. rewrite andb_true_iff, !truthy_true_iff.
  rewrite strip_empty_iff. destruct s; simpl.
  - split; [intros [A _]; now elim A | discriminate].
  - destruct (Str.isspace a && all_space s); intuition congruence.
Qed.

Lemma lifespan_initialised new_AIExtractor load_valid_vessels app :
  lifespan new_AIExtractor load_valid_vessels = Ok app -> initialised app.
Proof.
  unfold lifespan. destruct new_AIExtractor as [ai|e]; simpl; [|discriminate].
  destruct load_valid_vessels as [vs|e]; simpl; [|discriminate].
  intros [= <-]. exists ai, (mkDocumentValidator vs). auto.
Qed.

Lemma validate_document_whole_or_error app request :
  whole_or_error app request.
Proof.
  unfold whole_or_error.
  destruct (ai_extractor app) as [ai|] eqn:Hai.
  2:{ right. unfold validate_document. rewrite Hai. simpl. eauto. }
  destruct (validator app) as [v|] eqn:Hv.
  2:{ right. unfold validate_document. rewrite Hai, Hv. simpl. eauto. }
  destruct (nonblank (text request)) eqn:Hnb.
  - rewrite (validate_document_run app ai v request Hai Hv Hnb).
    destruct (extraction_outcome ai (text request)) as [data|e] eqn:Hex.
    + destruct (date_consistency_total v data) as (r1 & E1 & _).
      destruct (insured_value_total v data) as (r2 & E2 & _).
      destruct (vessel_name_total v data) as (r3 & E3 & _).
      destruct (completeness_total v data) as (r4 & E4 & _).
      pose proof (validate_collects v data r1 r2 r3 r4 E1 E2 E3 E4) as Hval.
      left. exists ai, v, data, r1, r2, r3, r4.
      rewrite extract_fields_run, Hval. simpl. auto.
    + right. simpl. eauto.
  - right. unfold validate_document. rewrite Hai, Hv.
    unfold nonblank in Hnb. apply andb_false_iff in Hnb.
    replace (negb (Str.truthy (text request))
             || negb (Str.truthy (Str.strip (text request)))) with true.
    + simpl. eauto.
    + destruct Hnb as [-> | ->]; simpl; [reflexivity|].
      now rewrite orb_true_r.
Qed.

(** C3.  On an initialised application and a text that is not blank:
    an empty response of the provider, a response that [json.loads]
    rejects, and a parsed object that the model constructor rejects each
    make [extract_fields] raise a [ValueError] with its reason; and
    whenever [extract_fields] raises, the route makes the one call to
    the provider and nothing else (the rule validator is not called)
    and answers with one HTTP error whose detail is the text of that
    exception.  For every application and request the answer is either
    the whole response (the extracted data with the four rule results
    of the validator) or one HTTP error. *)
Theorem extraction_failure_stops_pipeline (app : App)
    (request : DocumentRequest) :
  (forall ai v,
      ai_extractor app = Some ai ->
      validator app = Some v ->
      all_space (text request) = false ->
      let prompt := _build_prompt (text request) in
      (forall response,
          generate_content ai prompt = Ok response ->
          nonempty_text response = Ok None ->
          outcome (extract_fields ai (text request))
          = raise ValueError "Empty response received from Gemini AI")
      /\ (forall response t e,
             generate_content ai prompt = Ok response ->
             nonempty_text response = Ok (Some t) ->
             json_loads t = Raise e ->
             is_JSONDecodeError e = true ->
             outcome (extract_fields ai (text request))
             = raise ValueError
                 ("Invalid JSON response from AI: " +:+ exn_str e))
      /\ (forall response t obj e,
             generate_content ai prompt = Ok response ->
             nonempty_text response = Ok (Some t) ->
             json_loads t = Ok obj ->
             ExtractedData_from obj = Raise e ->
             outcome (extract_fields ai (text request))
             = raise ValueError
                 ("Extracted data validation failed: " +:+ exn_str e))
      /\ (forall e,
             outcome (extract_fields ai (text request)) = Raise e ->
             validate_document app request
             = mkIO [GenerateContent prompt]
                 (raise (HTTPException 400) (exn_str e))
             /\ Forall (fun ev => is_RuleValidator ev = false)
                  (trace (validate_document app request))))
  /\ whole_or_error app request.
Proof.
  split; [|apply validate_document_whole_or_error].
  intros ai v Hai Hv Hns prompt. apply nonblank_all_space in Hns.
  rewrite extract_fields_run. simpl. unfold extraction_outcome.
  fold prompt.
  split; [|split; [|split]].
  - intros response -> ->. reflexivity.
  - intros response t e -> -> -> ->. reflexivity.
  - intros response t obj e -> -> -> ->. reflexivity.
  - intros e He.
    rewrite (validate_document_run app ai v request Hai Hv Hns).
    unfold extraction_outcome. fold prompt. rewrite He.
    split; [reflexivity|]. repeat constructor.
Qed.

(** C5.  A text that is empty or all white space never reaches the
    extractor: neither the route nor the handler makes any call, and
    both answer with an HTTP error.  Once [lifespan] has set the
    application up that error is a client error: 422 from the request
    model for the empty text, and 400 with
    [Document text cannot be empty] from the handler. *)
Theorem blank_text_rejected (app : App) (body_text : string) :
  all_space body_text = true ->
  (trace (post_validate app body_text) = []
   /\ exists code detail,
       outcome (post_validate app body_text)
       = Raise (Exn (HTTPException code) detail)
       /\ (forall new_AIExtractor load_valid_vessels,
              lifespan new_AIExtractor load_valid_vessels = Ok app ->
              (body_text = EmptyString -> code = 422)
              /\ (body_text <> EmptyString ->
                  code = 400 /\ detail = "Document text cannot be empty")))
  /\ (forall request,
         text request = body_text ->
         trace (validate_document app request) = []
         /\ exists code detail,
             outcome (validate_document app request)
             = Raise (Exn (HTTPException code) detail)
             /\ (forall new_AIExtractor load_valid_vessels,
                    lifespan new_AIExtractor load_valid_vessels = Ok app ->
                    code = 400 /\ detail = "Document text cannot be empty")).
Proof.
  intros Hblank.
  assert (forall request, text request = body_text ->
            negb (Str.truthy (text request))
            || negb (Str.truthy (Str.strip (text request))) = true) as Hguard.
  { intros request ->. apply strip_empty_iff in Hblank. rewrite Hblank.
    simpl. apply orb_true_r. }
  assert (forall request,
         text request = body_text ->
         trace (validate_document app request) = []
         /\ exists code detail,
             outcome (validate_document app request)
             = Raise (Exn (HTTPException code) detail)
             /\ (forall new_AIExtractor load_valid_vessels,
                    lifespan new_AIExtractor load_valid_vessels = Ok app ->
                    code = 400 /\ detail = "Document text cannot be empty"))
    as Hhandler.
  { intros request Hreq. unfold validate_document.
    destruct (ai_extractor app) as [ai|] eqn:Hai.
    - destruct (validator app) as [v|] eqn:Hv.
      + rewrite (Hguard request Hreq). simpl. split; [reflexivity|].
        do 2 eexists. split; [reflexivity|]. auto.
      + simpl. split; [reflexivity|]. do 2 eexists. split; [reflexivity|].
        intros a b Hl. apply lifespan_initialised in Hl
          as (ai' & v' & _ & Hv'). congruence.
    - simpl. split; [reflexivity|]. do 2 eexists. split; [reflexivity|].
      intros a b Hl. apply lifespan_initialised in Hl
        as (ai' & v' & Hai' & _). congruence. }
  split; [|exact Hhandler].
  unfold post_validate, DocumentRequest_init.
  destruct body_text as [|c rest].
  - simpl. split; [reflexivity|]. do 2 eexists. split; [reflexivity|].
    intros a b _. split; [auto|]. intros Hc. now elim Hc.
  - replace (Str.len (String c rest) <? 1) with false.
    + destruct (Hhandler (mkDocumentRequest (String c rest)) eq_refl)
        as (Ht & code & detail & Ho & Hl).
      split; [exact Ht|]. exists code, detail. split; [exact Ho|].
      intros a b Hab. split; [discriminate|]. intros _. eauto.
    + symmetry. apply Z.ltb_ge. unfold Str.len. simpl String.length. lia.
Qed.

(** X1.  Whatever [extract_fields] raises is a [ValueError]: every
    other exception of the provider, of [json.loads] or of the model
    constructor is caught and raised again as one. *)
Theorem extract_fields_raises_only_ValueError (ai : AIExtractor)
    (document_text : string) (e : exn) :
  outcome (extract_fields ai document_text) = Raise e ->
  is_ValueError e = true.
Proof.
  rewrite extract_fields_run. simpl. apply extraction_raises_ValueError.
Qed.

(** X2.  [extract_fields] asks the provider exactly once, with the
    prompt built from the document text, whatever happens afterwards. *)
Theorem extract_fields_single_attempt (ai : AIExtractor)
    (document_text : string) :
  trace (extract_fields ai document_text)
  = [GenerateContent (_build_prompt document_text)].
Proof. rewrite extract_fields_run. reflexivity. Qed.

(** X3.  Validation never fails the pipeline: on an initialised
    application and a text that is not blank, whenever the extractor
    returns a record the route calls the provider, then the validator,
    and answers with the record and the validator's four results,
    whatever their statuses. *)
Theorem pipeline_succeeds_when_extraction_succeeds (app : App)
    (ai : AIExtractor) (v : DocumentValidator) (request : DocumentRequest)
    (data : ExtractedData) :
  ai_extractor app = Some ai ->
  validator app = Some v ->
  all_space (text request) = false ->
  outcome (extract_fields ai (text request)) = Ok data ->
  exists r1 r2 r3 r4,
    validate v data = Ok [r1; r2; r3; r4]
    /\ validate_document app request
       = mkIO [GenerateContent (_build_prompt (text request));
               RuleValidator data]
           (Ok (mkValidationResponse data [r1; r2; r3; r4])).
Proof.
  intros Hai Hv Hns Hex. apply nonblank_all_space in Hns.
  rewrite extract_fields_run in Hex. simpl in Hex.
  destruct (date_consistency_total v data) as (r1 & E1 & _).
  destruct (insured_value_total v data) as (r2 & E2 & _).
  destruct (vessel_name_total v data) as (r3 & E3 & _).
  destruct (completeness_total v data) as (r4 & E4 & _).
  pose proof (validate_collects v data r1 r2 r3 r4 E1 E2 E3 E4) as Hval.
  exists r1, r2, r3, r4. split; [exact Hval|].
  rewrite (validate_document_run app ai v request Hai Hv Hns), Hex, Hval.
  reflexivity.
Qed.


(** [extract_fields_sync] as one run: the call to the provider, and
    the outcome of the body with every exception wrapped. *)
Lemma extract_fields_sync_run ai document_text :
  extract_fields_sync ai document_text
  = mkIO [GenerateContent (_build_prompt document_text)]
      (sync_wrap
         (response ← generate_content ai (_build_prompt document_text);
          response_text ← nonempty_text response;
          match response_text with
          | None => raise ValueError "Empty response received from Gemini AI"
          | Some response_text =>
              extracted_dict ← json_loads response_text;
              ExtractedData_from extracted_dict
          end)).
Proof.
  unfold extract_fields_sync, call_generate_content.
  generalize (_build_prompt document_text) as prompt. intros prompt.
  unfold io_try, mbind, IO_bind, lift, result_bind. simpl.
  destruct (generate_content ai prompt) as [response|e]; simpl; [|reflexivity].
  destruct (nonempty_text response) as [[t|]|e]; simpl; try reflexivity.
  destruct (json_loads t) as [obj|e]; simpl; [|reflexivity].
  destruct (ExtractedData_from obj) as [data|e]; reflexivity.
Qed.

Ltac wrapped_failure :=
  simpl; split; [reflexivity|];
  split; [first [reflexivity
                | apply (prefix_append "AI extraction failed: ")]|].

(** X12.  [extract_fields_sync] makes the same single call to the
    provider as [extract_fields] and returns a record exactly when
    [extract_fields] does, the same one; when it fails it raises a
    [ValueError] whose text starts with [AI extraction failed: ],
    whatever the cause, and [extract_fields] fails too. *)
Theorem extract_fields_sync_agrees (ai : AIExtractor)
    (document_text : string) :
  trace (extract_fields_sync ai document_text)
  = trace (extract_fields ai document_text)
  /\ (forall data,
         outcome (extract_fields_sync ai document_text) = Ok data
         <-> outcome (extract_fields ai document_text) = Ok data)
  /\ (forall e,
         outcome (extract_fields_sync ai document_text) = Raise e ->
         exn_cls e = ValueError
         /\ String.prefix "AI extraction failed: " (exn_str e) = true
         /\ exists e', outcome (extract_fields ai document_text) = Raise e').
Proof.
  rewrite extract_fields_sync_run, extract_fields_run. simpl.
  split; [reflexivity|].
  unfold extraction_outcome, mbind, result_bind.
  destruct (generate_content ai _) as [response|x]; simpl.
  2:{ split; [intros data; destruct (is_ValueError x); split; discriminate|].
      intros e [= <-]. wrapped_failure. destruct (is_ValueError x); eauto. }
  destruct (nonempty_text response) as [[t|]|x]; simpl.
  - destruct (json_loads t) as [obj|x]; simpl.
    + destruct (ExtractedData_from obj) as [d|x]; simpl.
      * split; [tauto|]. discriminate.
      * split; [intros data; split; discriminate|].
        intros e [= <-]. wrapped_failure. eauto.
    + split.
      * intros data. destruct (is_JSONDecodeError x); [split; discriminate|].
        destruct (is_ValueError x); split; discriminate.
      * intros e [= <-]. wrapped_failure.
        destruct (is_JSONDecodeError x); [eauto|].
        destruct (is_ValueError x); eauto.
  - split; [intros data; split; discriminate|].
    intros e [= <-]. wrapped_failure. eauto.
  - split; [intros data; destruct (is_ValueError x); split; discriminate|].
    intros e [= <-]. wrapped_failure. destruct (is_ValueError x); eauto.
Qed.

(** X14.  The prompt is the document text between two fixed texts: the
    text is passed whole and unchanged, two different documents never
    give the same prompt, and the prompt is longer than the document by
    a constant. *)
Theorem build_prompt_embeds_text :
  exists before after,
    (forall document_text,
        _build_prompt document_text = before +:+ document_text +:+ after)
    /\ (forall t1 t2, _build_prompt t1 = _build_prompt t2 -> t1 = t2)
    /\ (forall document_text,
           Str.len (_build_prompt document_text)
           = Str.len before + Str.len document_text + Str.len after).
Proof.
  set (after := "

Return ONLY valid JSON.").
  set (before :=
         Str.take (String.length (_build_prompt EmptyString)
                   - String.length after) (_build_prompt EmptyString)).
  assert (forall t, _build_prompt t = before +:+ t +:+ after) as shape.
  { intros t. vm_compute. reflexivity. }
  exists before, after. split; [exact shape|]. split.
  - intros t1 t2. rewrite !shape. intros E.
    apply append_inv_head in E. now apply append_inv_tail in E.
  - intros t. rewrite shape. unfold Str.len. rewrite !length_append. lia.
Qed.

(** The handler on a text that is blank, and on an application that
    did not start. *)
Lemma validate_document_blank app ai v request :
  ai_extractor app = Some ai ->
  validator app = Some v ->
  nonblank (text request) = false ->
  validate_document app request
  = lift (raise (HTTPException 400) "Document text cannot be empty").
Proof.
  intros Hai Hv Hnb. unfold validate_document. rewrite Hai, Hv.
  unfold nonblank in Hnb. apply andb_false_iff in Hnb.
  replace (negb (Str.truthy (text request))
           || negb (Str.truthy (Str.strip (text request)))) with true;
    [reflexivity|].
  destruct Hnb as [-> | ->]; simpl; [reflexivity|]. now rewrite orb_true_r.
Qed.

Lemma validate_document_not_initialised app request :
  ai_extractor app = None \/ validator app = None ->
  validate_document app request = lift (Raise not_initialized_error).
Proof.
  unfold validate_document. intros [E | E]; rewrite E; [reflexivity|].
  destruct (ai_extractor app); reflexivity.
Qed.

(** Every error of the handler on an initialised application is a 400. *)
Lemma validate_document_error app request e :
  initialised app ->
  outcome (validate_document app request) = Raise e ->
  exn_cls e = HTTPException 400.
Proof.
  intros (ai & v & Hai & Hv).
  destruct (nonblank (text request)) eqn:Hnb.
  - rewrite (validate_document_run app ai v request Hai Hv Hnb).
    destruct (extraction_outcome ai (text request)) as [data|x]; simpl.
    + destruct (validate_Ok v data) as [results ->]. discriminate.
    + intros [= <-]. reflexivity.
  - rewrite (validate_document_blank app ai v request Hai Hv Hnb).
    intros [= <-]. reflexivity.
Qed.

(** X18.  Once both globals are set, every error of [POST /validate] is
    a client error: 422 for the empty text, 400 for any other failure
    (blank text, provider, JSON or model failure).  The 500 answers of
    the handler, for an application that is not initialised and for an
    exception that is not a [ValueError], do not occur. *)
Theorem route_errors_are_client_errors (app : App) (body_text : string)
    (e : exn) :
  initialised app ->
  outcome (post_validate app body_text) = Raise e ->
  (body_text = EmptyString -> exn_cls e = HTTPException 422)
  /\ (body_text <> EmptyString -> exn_cls e = HTTPException 400).
Proof.
  intros Hinit. unfold post_validate, DocumentRequest_init.
  destruct body_text as [|c rest].
  - simpl. intros [= <-]. split; [reflexivity|]. intros Hc. now elim Hc.
  - replace (Str.len (String c rest) <? 1) with false.
    + intros He. split; [discriminate|]. intros _.
      exact (validate_document_error app _ e Hinit He).
    + symmetry. apply Z.ltb_ge. unfold Str.len. simpl String.length. lia.
Qed.

(** X23.  Whatever the application and the text, [POST /validate]
    makes no call and fails, or makes the one call to the provider (with
    the prompt of the text) and fails, or makes that call, then the one
    run of the validator on the extracted record, and answers with that
    record: never a second call to the provider, never the validator
    before or without the extractor. *)
Theorem post_validate_calls (app : App) (body_text : string) :
  (trace (post_validate app body_text) = []
   /\ exists e, outcome (post_validate app body_text) = Raise e)
  \/ (trace (post_validate app body_text)
      = [GenerateContent (_build_prompt body_text)]
      /\ exists e, outcome (post_validate app body_text) = Raise e)
  \/ (exists data results,
         trace (post_validate app body_text)
         = [GenerateContent (_build_prompt body_text); RuleValidator data]
         /\ outcome (post_validate app body_text)
            = Ok (mkValidationResponse data results)).
Proof.
  unfold post_validate, DocumentRequest_init.
  destruct body_text as [|c rest]; [left; simpl; eauto|].
  replace (Str.len (String c rest) <? 1) with false
    by (symmetry; apply Z.ltb_ge; unfold Str.len; simpl String.length; lia).
  set (request := mkDocumentRequest (String c rest)).
  destruct (ai_extractor app) as [ai|] eqn:Hai.
  2:{ left. rewrite validate_document_not_initialised by auto.
      simpl. eauto. }
  destruct (validator app) as [v|] eqn:Hv.
  2:{ left. rewrite validate_document_not_initialised by auto.
      simpl. eauto. }
  destruct (nonblank (text request)) eqn:Hnb.
  - rewrite (validate_document_run app ai v request Hai Hv Hnb).
    destruct (extraction_outcome ai (text request)) as [data|x].
    + destruct (validate_Ok v data) as [results Hr]. rewrite Hr.
      right; right. exists data, results. auto.
    + right; left. simpl. eauto.
  - left. rewrite (validate_document_blank app ai v request Hai Hv Hnb).
    simpl. eauto.
Qed.

End Pipeline.

(* ===================================================================== *)
(** * Start-up: the extractor, the vessels file and the health report *)
(* ===================================================================== *)

Section Startup.
Context `{Runtime}.

Lemma str_items_elem s items : s ∈ str_items items <-> PStr s ∈ items.
Proof.
  induction items as [|v items IH]; simpl.
  - split; intros Hin; inversion Hin.
  - destruct v; rewrite ?elem_of_cons, IH;
      try (split; [intros Hin; right; exact Hin
                  |intros [Hv | Hin]; [discriminate Hv | exact Hin]]).
    split; (intros [Hv | Hin]; [left; congruence | right; exact Hin]).
Qed.

Lemma forallb_isinstance_str items :
  forallb isinstance_str items = true
  <-> forall v, v ∈ items -> exists s, v = PStr s.
Proof.
  induction items as [|v items IH]; simpl.
  - split; [intros _ v Hin; inversion Hin | reflexivity].
  - rewrite andb_true_iff, IH. split.
    + intros [Hv Hall] x Hin. apply elem_of_cons in Hin as [-> | Hin]; [|auto].
      destruct v; try discriminate. eauto.
    + intros Hall. split.
      * destruct (Hall v) as [s ->]; [left|reflexivity].
      * intros x Hin. apply Hall. now right.
Qed.

(** The loader, once the file is known to exist. *)
Lemma load_valid_vessels_run fs filename :
  path_exists fs filename = true ->
  load_valid_vessels fs filename
  = match read_text fs filename with
    | Raise e => Raise (vessels_file_error e)
    | Ok content =>
        match json_loads content with
        | Raise e => Raise (vessels_file_error e)
        | Ok (PList items) =>
            if forallb isinstance_str items then
              Ok (list_to_set (str_items items))
            else raise ValueError "All vessel names must be strings"
        | Ok _ => raise ValueError "Valid vessels file must contain a JSON array"
        end
    end.
Proof.
  intros He. unfold load_valid_vessels, vessels_file_error. rewrite He. simpl.
  destruct (read_text fs filename) as [content|e]; simpl.
  - destruct (json_loads content) as [v|e]; simpl.
    + destruct v; try reflexivity.
      destruct (forallb isinstance_str l); reflexivity.
    + destruct (is_JSONDecodeError e); reflexivity.
  - destruct (is_JSONDecodeError e); reflexivity.
Qed.

(** What a successful load says about the file. *)
Lemma load_valid_vessels_Ok fs filename vessels :
  load_valid_vessels fs filename = Ok vessels ->
  exists content items,
    path_exists fs filename = true
    /\ read_text fs filename = Ok content
    /\ json_loads content = Ok (PList items)
    /\ forallb isinstance_str items = true
    /\ vessels = list_to_set (str_items items).
Proof.
  destruct (path_exists fs filename) eqn:He.
  2:{ unfold load_valid_vessels. rewrite He. discriminate. }
  rewrite (load_valid_vessels_run fs filename He).
  destruct (read_text fs filename) as [content|e]; [|discriminate].
  destruct (json_loads content) as [v|e] eqn:Hj; [|discriminate].
  destruct v as [| | | | |items|]; try discriminate.
  destruct (forallb isinstance_str items) eqn:Hall; [|discriminate].
  intros [= <-]. exists content, items. auto.
Qed.

(** X15.  [load_valid_vessels] returns a set exactly when the file
    exists, can be read, and holds a JSON array all of whose elements
    are strings; the set then has exactly the strings of the array as
    its members (the order and the repetitions of the file are lost). *)
Theorem load_valid_vessels_spec (fs : FileSystem) (filename : string)
    (vessels : gset string) :
  load_valid_vessels fs filename = Ok vessels
  <-> exists content items,
        path_exists fs filename = true
        /\ read_text fs filename = Ok content
        /\ json_loads content = Ok (PList items)
        /\ (forall v, v ∈ items -> exists s, v = PStr s)
        /\ (forall s, s ∈ vessels <-> PStr s ∈ items).
Proof.
  split.
  - intros Hl. apply load_valid_vessels_Ok in Hl
      as (content & items & He & Hr & Hj & Hall & ->).
    exists content, items. do 3 (split; [assumption|]).
    split; [now apply forallb_isinstance_str|].
    intros s. rewrite elem_of_list_to_set. apply str_items_elem.
  - intros (content & items & He & Hr & Hj & Hall & Hmem).
    rewrite (load_valid_vessels_run fs filename He), Hr, Hj.
    apply forallb_isinstance_str in Hall. rewrite Hall. f_equal.
    apply set_eq. intros s.
    rewrite elem_of_list_to_set, str_items_elem, Hmem. reflexivity.
Qed.

(** X16.  The failures of [load_valid_vessels]: a missing file raises
    an exception that is not a [ValueError]; a file that is not JSON, a
    JSON value that is not an array, and an array with an element that
    is not a string each raise a [ValueError] with their own message,
    so no part of a malformed file is ever loaded. *)
Theorem load_valid_vessels_errors (fs : FileSystem) (filename : string) :
  (path_exists fs filename = false ->
   exists e, load_valid_vessels fs filename = Raise e
             /\ is_ValueError e = false)
  /\ (forall content e,
         path_exists fs filename = true ->
         read_text fs filename = Ok content ->
         json_loads content = Raise e ->
         is_JSONDecodeError e = true ->
         load_valid_vessels fs filename
         = raise ValueError
             ("Invalid JSON in valid_vessels.json: " +:+ exn_str e))
  /\ (forall content v,
         path_exists fs filename = true ->
         read_text fs filename = Ok content ->
         json_loads content = Ok v ->
         (forall items, v <> PList items) ->
         load_valid_vessels fs filename
         = raise ValueError "Valid vessels file must contain a JSON array")
  /\ (forall content items v,
         path_exists fs filename = true ->
         read_text fs filename = Ok content ->
         json_loads content = Ok (PList items) ->
         v ∈ items -> isinstance_str v = false ->
         load_valid_vessels fs filename
         = raise ValueError "All vessel names must be strings").
Proof.
  split; [|split; [|split]].
  - intros He. unfold load_valid_vessels. rewrite He. simpl.
    eexists. split; reflexivity.
  - intros content e He Hr Hj Hd.
    rewrite (load_valid_vessels_run fs filename He), Hr, Hj.
    unfold vessels_file_error. rewrite Hd. reflexivity.
  - intros content v He Hr Hj Hv.
    rewrite (load_valid_vessels_run fs filename He), Hr, Hj.
    destruct v; try reflexivity. now elim (Hv l).
  - intros content items v He Hr Hj Hin Hv.
    rewrite (load_valid_vessels_run fs filename He), Hr, Hj.
    destruct (forallb isinstance_str items) eqn:Hall; [|reflexivity].
    destruct (proj1 (forallb_isinstance_str items) Hall v Hin) as [s ->].
    discriminate.
Qed.

(** X13.  [AIExtractor()] returns an extractor exactly when the
    environment holds a non-empty [GEMINI_API_KEY] and the provider's
    library builds a model for it; it raises nothing but [ValueError]:
    for a key that is missing or empty (whatever the library would do),
    and, with the library's message wrapped, for any failure of the
    library. *)
Theorem AIExtractor_init_spec (genai : Provider) :
  (forall ai,
      AIExtractor_init genai = Ok ai
      <-> exists key, getenv genai "GEMINI_API_KEY" = Some key
                      /\ key <> EmptyString
                      /\ GenerativeModel genai key = Ok ai)
  /\ (forall e, AIExtractor_init genai = Raise e -> exn_cls e = ValueError)
  /\ (getenv genai "GEMINI_API_KEY" = None
      \/ getenv genai "GEMINI_API_KEY" = Some EmptyString ->
      AIExtractor_init genai
      = raise ValueError
          ("GEMINI_API_KEY not found in environment variables. "
           +:+ "Please set it in your .env file."))
  /\ (forall key e,
         getenv genai "GEMINI_API_KEY" = Some key ->
         key <> EmptyString ->
         GenerativeModel genai key = Raise e ->
         AIExtractor_init genai
         = raise ValueError ("Failed to initialize Gemini API: " +:+ exn_str e)).
Proof.
  unfold AIExtractor_init.
  destruct (getenv genai "GEMINI_API_KEY") as [[|c key]|] eqn:Hk; simpl.
  - split; [|split; [|split]].
    + intros ai. split; [discriminate|].
      intros (key & [= <-] & Hne & _). now elim Hne.
    + intros e [= <-]. reflexivity.
    + reflexivity.
    + intros key e [= <-] Hne. now elim Hne.
  - split; [|split; [|split]].
    + intros ai. split.
      * destruct (GenerativeModel genai (String c key)) eqn:Hm; [|discriminate].
        intros [= <-]. exists (String c key). auto.
      * intros (key' & [= <-] & _ & ->). reflexivity.
    + intros e. destruct (GenerativeModel genai (String c key)); [discriminate|].
      intros [= <-]. reflexivity.
    + intros [Hc | Hc]; discriminate.
    + intros key' e [= <-] _ ->. reflexivity.
  - split; [|split; [|split]].
    + intros ai. split; [discriminate|]. intros (key & Hc & _). discriminate.
    + intros e [= <-]. reflexivity.
    + reflexivity.
    + intros key e Hc. discriminate.
Qed.

(** X17.  After a start-up that succeeded, the extractor is the one
    [AIExtractor()] built, and the validator's approved set is the
    content of [valid_vessels.json]: a vessel name that is present and
    not empty passes the Vessel Name Match rule exactly when it equals,
    up to letter case, a string of the file's array. *)
Theorem approved_vessels_come_from_file (genai : Provider) (fs : FileSystem)
    (app : App) :
  startup genai fs = Ok app ->
  exists ai v content items,
    AIExtractor_init genai = Ok ai
    /\ read_text fs "valid_vessels.json" = Ok content
    /\ json_loads content = Ok (PList items)
    /\ ai_extractor app = Some ai
    /\ validator app = Some v
    /\ (forall s, s ∈ valid_vessels v <-> PStr s ∈ items)
    /\ (forall data n,
           vessel_name data = Some n -> n <> EmptyString ->
           exists r,
             _validate_vessel_name v data = Ok r
             /\ (status r = "PASS"
                 <-> exists s, PStr s ∈ items /\ Str.lower n = Str.lower s)).
Proof.
  unfold startup, lifespan.
  destruct (AIExtractor_init genai) as [ai|e]; simpl; [|discriminate].
  destruct (load_valid_vessels fs "valid_vessels.json") as [vessels|e] eqn:Hl;
    simpl; [|discriminate].
  intros [= <-].
  apply load_valid_vessels_Ok in Hl
    as (content & items & _ & Hr & Hj & _ & ->).
  assert (forall s, s ∈ (list_to_set (str_items items) : gset string)
                    <-> PStr s ∈ items) as Hmem.
  { intros s. rewrite elem_of_list_to_set. apply str_items_elem. }
  exists ai, (mkDocumentValidator (list_to_set (str_items items))),
    content, items.
  do 5 (split; [auto|]). split; [exact Hmem|].
  intros data n Hn Hne.
  rewrite (vessel_rule_run _ data n Hn Hne). simpl.
  case_decide as Hin; rewrite lower_in_lowered in Hin;
    eexists; (split; [reflexivity|]); simpl.
  - split; [intros _|reflexivity].
    destruct Hin as (s & Hs & E). exists s. split; [now apply Hmem|exact E].
  - split; [discriminate|]. intros (s & Hs & E). elim Hin.
    exists s. split; [now apply Hmem|exact E].
Qed.

(** X19.  [/health] reports both globals as initialized exactly when
    both are set, which is exactly when [/validate] never answers with
    the error of a service that is not initialised; after a start-up
    that succeeded it reports both. *)
Theorem health_reflects_route (app : App) :
  (reports_initialized (health app) <-> initialised app)
  /\ (reports_initialized (health app)
      <-> forall request,
            outcome (validate_document app request)
            <> Raise not_initialized_error)
  /\ (forall genai fs,
         startup genai fs = Ok app -> reports_initialized (health app)).
Proof.
  assert (reports_initialized (health app) <-> initialised app) as Hh.
  { unfold reports_initialized, health, initialised. simpl.
    destruct (ai_extractor app) as [ai|], (validator app) as [v|]; split.
    - eauto.
    - auto.
    - intros [_ Hc]. discriminate.
    - intros (ai' & v' & _ & Hc). discriminate.
    - intros [Hc _]. discriminate.
    - intros (ai' & v' & Hc & _). discriminate.
    - intros [Hc _]. discriminate.
    - intros (ai' & v' & Hc & _). discriminate. }
  split; [exact Hh|]. split.
  - rewrite Hh. split.
    + intros Hinit request He.
      apply (validate_document_error app request _ Hinit) in He.
      discriminate.
    + intros Hroute.
      destruct (ai_extractor app) as [ai|] eqn:Hai.
      * destruct (validator app) as [v|] eqn:Hv; [exists ai, v; auto|].
        elim (Hroute (mkDocumentRequest EmptyString)).
        rewrite validate_document_not_initialised by auto. reflexivity.
      * elim (Hroute (mkDocumentRequest EmptyString)).
        rewrite validate_document_not_initialised by auto. reflexivity.
  - intros genai fs Hs. apply Hh. unfold startup in Hs.
    now apply lifespan_initialised in Hs.
Qed.

End Startup.

(* ===================================================================== *)
(** * Serialisation *)
(* ===================================================================== *)

Section Serialisation.
Context `{Runtime}.

Lemma dump_str_field (v : option string)
    (after : option string -> result (option string)) name items :
  dict_get name items = Some (dump_str v) ->
  pydantic_field items name pydantic_str after = after v.
Proof.
  unfold pydantic_field. intros ->. destruct v; reflexivity.
Qed.

(** C4.  Whenever the constructor returns an instance, its two date
    fields are absent or accepted by [strptime] with [%Y-%m-%d] (the
    insured value is a float by its type), and a date or a value given
    in the keywords is present in the instance, neither dropped nor
    turned into [None].  Whenever a keyword holds a present but
    malformed value the constructor raises a [ValidationError], and
    [extract_fields] on a response that parses to these keywords raises
    a [ValueError] that starts with [Extracted data validation failed: ]. *)
Theorem ExtractedData_fail_closed (kwargs : list (string * pyval)) :
  (forall data,
      ExtractedData_init kwargs = Ok data ->
      ExtractedData_inv data
      /\ (forall v, dict_get "policy_start_date" kwargs = Some v ->
                    v <> PNone ->
                    exists s, v = PStr s /\ policy_start_date data = Some s)
      /\ (forall v, dict_get "policy_end_date" kwargs = Some v ->
                    v <> PNone ->
                    exists s, v = PStr s /\ policy_end_date data = Some s)
      /\ (forall v, dict_get "insured_value" kwargs = Some v ->
                    v <> PNone ->
                    exists f, pydantic_float v = Ok f
                              /\ insured_value data = Some f))
  /\ (has_malformed_field kwargs ->
      (exists e, ExtractedData_init kwargs = Raise e
                 /\ exn_cls e = ValidationError)
      /\ forall ai document_text response t,
          generate_content ai (_build_prompt document_text) = Ok response ->
          nonempty_text response = Ok (Some t) ->
          json_loads t = Ok (PDict kwargs) ->
          exists reason,
            outcome (extract_fields ai document_text)
            = raise ValueError
                ("Extracted data validation failed: " +:+ reason)).
Proof.
  split.
  - intros data Hinit. split; [eapply ExtractedData_init_inv; eauto|].
    apply ExtractedData_init_Ok in Hinit as (_ & _ & E3 & E4 & E5).
    unfold pydantic_field in E3, E4, E5.
    split; [|split].
    + intros v Hv Hn. rewrite Hv in E3.
      destruct v; simpl in E3; try discriminate; [congruence|].
      apply (validate_date_format_ok (Some s)) in E3 as [E3 _]. eauto.
    + intros v Hv Hn. rewrite Hv in E4.
      destruct v; simpl in E4; try discriminate; [congruence|].
      apply (validate_date_format_ok (Some s)) in E4 as [E4 _]. eauto.
    + intros v Hv Hn. rewrite Hv in E5.
      destruct v; try congruence; unfold pydantic_optional in E5;
        destruct (pydantic_float _) as [x|e] eqn:Hf;
        simpl in E5; try discriminate; injection E5 as E5; eauto.
  - intros Hm. destruct (malformed_rejected kwargs Hm) as (e & He & Hc).
    split; [eauto|].
    intros ai document_text response t Hg Hn Hj.
    exists (exn_str e). rewrite extract_fields_run. simpl.
    unfold extraction_outcome. rewrite Hg, Hn, Hj. simpl. rewrite He.
    reflexivity.
Qed.

(** C9, amended.  An instance whose insured value is absent or finite
    comes back field for field from its own JSON output. *)
Theorem roundtrip_finite (kwargs : list (string * pyval))
    (data : ExtractedData) :
  ExtractedData_init kwargs = Ok data ->
  (forall f, insured_value data = Some f -> isfinite f = true) ->
  ExtractedData_init (model_dump_json data) = Ok data.
Proof.
  intros Hinit Hfin. apply ExtractedData_init_inv in Hinit as [Hs He].
  apply ExtractedData_init_Ok.
  rewrite !(dump_str_field _ _ _ (model_dump_json data)) by reflexivity.
  rewrite !validate_date_format_idem by assumption.
  repeat split.
  unfold pydantic_field. simpl.
  destruct (insured_value data) as [f|]; simpl; [|reflexivity].
  rewrite (Hfin f eq_refl). reflexivity.
Qed.

End Serialisation.

(* ===================================================================== *)
(** * utils.py: the text and key checks *)
(* ===================================================================== *)

Lemma sanitize_text_cons c text max_length :
  sanitize_text (String c text) max_length
  = Str.strip
      (let sanitized := Str.join_if kept_char (String c text) in
       if Str.len sanitized >? max_length
       then Str.slice_to max_length sanitized else sanitized).
Proof. reflexivity. Qed.

(** What [sanitize_text] hands to [strip]: the filtered text, cut to
    [max_length] when it is longer. *)
Lemma sanitize_text_cut p text max_length :
  let sanitized := Str.join_if kept_char text in
  let cut := if Str.len sanitized >? max_length
             then Str.slice_to max_length sanitized else sanitized in
  all_chars kept_char cut = true
  /\ Str.len cut <= Str.len text
  /\ (0 <= max_length -> Str.len cut <= max_length)
  /\ (all_chars p text = true -> all_chars p cut = true).
Proof.
  cbv zeta. set (j := Str.join_if kept_char text).
  assert (all_chars kept_char j = true) as Hj by apply all_chars_join_if.
  assert (Str.len j <= Str.len text) as Lj.
  { unfold Str.len. pose proof (length_join_if kept_char text) as L.
    fold j in L. lia. }
  assert (all_chars p text = true -> all_chars p j = true) as Pj
    by apply all_chars_join_if_other.
  destruct (Str.len j >? max_length) eqn:Hgt.
  - destruct (slice_to_facts kept_char max_length j) as (A & B & C).
    destruct (slice_to_facts p max_length j) as (_ & _ & D).
    split; [auto|]. split; [lia|]. split; [exact B|auto].
  - split; [exact Hj|]. split; [exact Lj|]. split; [|exact Pj].
    intros _. rewrite Z.gtb_ltb in Hgt. apply Z.ltb_ge in Hgt. exact Hgt.
Qed.

Lemma sanitize_text_facts text max_length :
  all_chars kept_char (sanitize_text text max_length) = true
  /\ Str.strip (sanitize_text text max_length) = sanitize_text text max_length
  /\ Str.len (sanitize_text text max_length) <= Str.len text
  /\ (0 <= max_length -> Str.len (sanitize_text text max_length) <= max_length).
Proof.
  destruct text as [|c text].
  { unfold sanitize_text, Str.len. simpl.
    split; [reflexivity|]. split; [reflexivity|]. split; [lia|]. auto. }
  rewrite sanitize_text_cons.
  destruct (sanitize_text_cut kept_char (String c text) max_length)
    as (Hc & Hl & Hm & _).
  cbv zeta in *.
  set (cut := if Str.len (Str.join_if kept_char (String c text)) >? max_length
              then Str.slice_to max_length
                     (Str.join_if kept_char (String c text))
              else Str.join_if kept_char (String c text)) in *.
  pose proof (len_strip cut) as Ls.
  split; [now apply all_chars_strip|].
  split; [apply strip_idem|].
  split; [lia|]. intros H0. specialize (Hm H0). lia.
Qed.

(** X20.  Whatever the text and the bound, the result of
    [sanitize_text] holds only characters that are printable or white
    space, has no white space at either end, is no longer than the text
    and, for a bound that is not negative, no longer than the bound; a
    text of white space only (the empty text included) gives the empty
    string. *)
Theorem sanitize_text_post (text : string) (max_length : Z) :
  all_chars kept_char (sanitize_text text max_length) = true
  /\ Str.strip (sanitize_text text max_length) = sanitize_text text max_length
  /\ Str.len (sanitize_text text max_length) <= Str.len text
  /\ (0 <= max_length -> Str.len (sanitize_text text max_length) <= max_length)
  /\ (all_space text = true -> sanitize_text text max_length = EmptyString).
Proof.
  destruct (sanitize_text_facts text max_length) as (A & B & C & D).
  do 4 (split; [assumption|]).
  destruct text as [|c text]; [reflexivity|].
  intros Hsp. rewrite sanitize_text_cons. apply strip_empty_iff.
  rewrite <- all_chars_isspace in Hsp |- *.
  now apply (sanitize_text_cut Str.isspace (String c text) max_length).
Qed.

(** X21.  For a bound that is not negative, sanitising twice is
    sanitising once, and the texts [sanitize_text] returns unchanged
    are exactly those of printable or white-space characters, without
    white space at either end, within the bound. *)
Theorem sanitize_text_fixed_points (text : string) (max_length : Z) :
  0 <= max_length ->
  sanitize_text (sanitize_text text max_length) max_length
  = sanitize_text text max_length
  /\ (sanitize_text text max_length = text
      <-> all_chars kept_char text = true
          /\ Str.strip text = text
          /\ Str.len text <= max_length).
Proof.
  intros Hm.
  assert (forall t, all_chars kept_char t = true -> Str.strip t = t ->
                    Str.len t <= max_length ->
                    sanitize_text t max_length = t) as unchanged.
  { intros [|c t] Hc Hs Hl; [reflexivity|].
    rewrite sanitize_text_cons. cbv zeta.
    rewrite (join_if_all_chars _ _ Hc).
    replace (Str.len (String c t) >? max_length) with false; [exact Hs|].
    symmetry. rewrite Z.gtb_ltb. apply Z.ltb_ge. exact Hl. }
  destruct (sanitize_text_facts text max_length) as (Pc & Ps & _ & Pm).
  specialize (Pm Hm).
  split; [now apply unchanged|].
  split.
  - intros E. rewrite E in Pc, Ps, Pm. auto.
  - intros (Hc & Hs & Hl). now apply unchanged.
Qed.

(** X22.  [validate_api_key] accepts only a [str] whose length without
    the white space at its ends is at least 20; white space around a
    key changes nothing, and a key of white space only is refused. *)
Theorem validate_api_key_spec :
  (forall api_key,
      validate_api_key api_key = true ->
      exists key, api_key = PStr key
                  /\ 20 <= Str.len (Str.strip key) <= Str.len key)
  /\ (forall a key b,
         all_space a = true -> all_space b = true ->
         validate_api_key (PStr (a +:+ key +:+ b))
         = validate_api_key (PStr key))
  /\ (forall key, all_space key = true -> validate_api_key (PStr key) = false).
Proof.
  assert (forall key, validate_api_key (PStr key)
                      = negb (Str.len (Str.strip key) <? 20)) as E.
  { intros [|c key]; [reflexivity|]. unfold validate_api_key. simpl Str.truthy.
    simpl negb. cbv iota. now destruct (_ <? 20). }
  split; [|split].
  - intros [| | | |key| |]; try discriminate. rewrite E.
    intros Hk. apply negb_true_iff, Z.ltb_ge in Hk.
    exists key. pose proof (len_strip key). split; [reflexivity|lia].
  - intros a key b Ha Hb. rewrite !E, (strip_padding a key b Ha Hb).
    reflexivity.
  - intros key Hk. rewrite E. apply strip_empty_iff in Hk. rewrite Hk.
    reflexivity.
Qed.


(* ===================================================================== *)
(** * Concrete runs *)
(* ===================================================================== *)

#[local] Existing Instance test_runtime.

(** What [strptime] accepts and rejects: zero padding is optional, a
    day may be written with a leading space, the date must exist. *)
Example strptime_ex1 :
  Datetime.strptime "2025-11-01" = Ok (Datetime.mkdatetime 2025 11 1).
Proof. reflexivity. Qed.

Example strptime_ex2 :
  Datetime.strptime "2025-1-5" = Ok (Datetime.mkdatetime 2025 1 5).
Proof. reflexivity. Qed.

Example strptime_ex3 :
  Datetime.strptime "2025-02-30"
  = Raise (Exn ValueError "day is out of range for month").
Proof. reflexivity. Qed.

Example strptime_ex4 :
  Datetime.strptime "2025-12-310"
  = Raise (Exn ValueError "unconverted data remains: 0").
Proof. reflexivity. Qed.

Example strptime_ex5 :
  Datetime.strptime "01/11/2025"
  = Raise (Exn ValueError
             "time data '01/11/2025' does not match format '%Y-%m-%d'").
Proof. reflexivity. Qed.

Example strptime_ex6 :
  Datetime.strptime "2024-02-29" = Ok (Datetime.mkdatetime 2024 2 29).
Proof. reflexivity. Qed.

Example strptime_ex7 : exists e, Datetime.strptime EmptyString = Raise e.
Proof. eexists; reflexivity. Qed.

Example strptime_ex8 :
  Datetime.strptime "0000-01-01"
  = Raise (Exn ValueError "year 0 is out of range").
Proof. reflexivity. Qed.

Example strptime_ex9 :
  Datetime.strptime "2025-11- 1" = Ok (Datetime.mkdatetime 2025 11 1).
Proof. reflexivity. Qed.

Example strptime_ex10 : exists e, Datetime.strptime "2025-13-01" = Raise e.
Proof. eexists; reflexivity. Qed.

Example strptime_ex11 : exists e, Datetime.strptime "1900-02-29" = Raise e.
Proof. eexists; reflexivity. Qed.

Example strip_ex1 : Str.strip "  HM-1 	" = "HM-1".
Proof. reflexivity. Qed.

Example lower_ex1 : Str.lower "MV Neptune" = "mv neptune".
Proof. reflexivity. Qed.

Example float_of_int_five_million : float_of_int 5000000 = Some five_million.
Proof. reflexivity. Qed.

Example float_of_int_minus_hundred : float_of_int (-100) = Some minus_hundred.
Proof. reflexivity. Qed.

Example sample_constructed : ExtractedData_init sample_kwargs = Ok sample_data.
Proof. reflexivity. Qed.

(** The worked example of the specification: with the approved set
    holding [MV Neptune], all four rules pass. *)
Example sample_all_pass :
  validate sample_validator sample_data
  = Ok [mkValidationResult "Date Consistency" "PASS"
          "Policy end date is after start date.";
        mkValidationResult "Value Check" "PASS" "Insured value is valid.";
        mkValidationResult "Vessel Name Match" "PASS"
          "Vessel 'MV Neptune' is on the approved list.";
        mkValidationResult "Completeness Check" "PASS"
          "Policy number is present."].
Proof. vm_compute. reflexivity. Qed.

(** The same extraction with the end date equal to the start date:
    the date rule fails, the other three are unaffected. *)
Example equal_dates_fail :
  validate sample_validator
    (mkExtractedData (Some "HM-1") (Some "MV Neptune") (Some "2025-11-01")
       (Some "2025-11-01") (Some five_million))
  = Ok [mkValidationResult "Date Consistency" "FAIL"
          "Policy end date (2025-11-01) must be after start date (2025-11-01).";
        mkValidationResult "Value Check" "PASS" "Insured value is valid.";
        mkValidationResult "Vessel Name Match" "PASS"
          "Vessel 'MV Neptune' is on the approved list.";
        mkValidationResult "Completeness Check" "PASS"
          "Policy number is present."].
Proof. vm_compute. reflexivity. Qed.

(** An insured value of -100: the value rule fails and cites the value,
    the other rules still produce their results. *)
Example negative_value_fail :
  validate sample_validator
    (mkExtractedData (Some "HM-1") (Some "mv neptune") (Some "2025-11-01")
       (Some "2026-10-31") (Some minus_hundred))
  = Ok [mkValidationResult "Date Consistency" "PASS"
          "Policy end date is after start date.";
        mkValidationResult "Value Check" "FAIL"
          "Insured value (-100.0) must be greater than 0.";
        mkValidationResult "Vessel Name Match" "PASS"
          "Vessel 'mv neptune' is on the approved list.";
        mkValidationResult "Completeness Check" "PASS"
          "Policy number is present."].
Proof. vm_compute. reflexivity. Qed.

(** The whole pipeline on the sample: one call to the provider, one run
    of the validator, the whole response. *)
Example sample_pipeline :
  exists results,
    validate sample_validator sample_data = Ok results
    /\ validate_document sample_app sample_request
       = mkIO [GenerateContent (_build_prompt (text sample_request));
               RuleValidator sample_data]
           (Ok (mkValidationResponse sample_data results)).
Proof. eexists. split; vm_compute; reflexivity. Qed.

Lemma sample_data_inv : ExtractedData_inv sample_data.
Proof.
  split; intros s [= <-]; eexists; (split; [reflexivity|]);
    repeat split; cbv; discriminate.
Qed.

Lemma date_consistency_spec_witness :
  ExtractedData_inv sample_data
  /\ exists r, _validate_date_consistency sample_validator sample_data = Ok r
               /\ status r = "PASS".
Proof.
  split; [exact sample_data_inv|].
  destruct (date_consistency_spec sample_validator sample_data) as [Hboth _].
  destruct (Hboth sample_data_inv "2025-11-01" "2026-10-31" eq_refl eq_refl)
    as (ds & de & r & Hds & Hde & Hr & _ & Hiff & _).
  exists r. split; [exact Hr|]. apply Hiff.
  injection Hds as <-. injection Hde as <-. vm_compute. auto.
Defined.

Lemma date_parse_failure_unreachable_witness :
  ExtractedData_inv sample_data
  /\ exists r, date_consistency_body "Date Consistency" sample_data = Ok r.
Proof.
  split; [exact sample_data_inv|].
  destruct (date_parse_failure_unreachable sample_validator sample_data
              sample_data_inv) as (_ & r & Hr & _).
  exists r. exact Hr.
Defined.

Lemma extraction_failure_stops_pipeline_witness :
  all_space (text sample_request) = false
  /\ validate_document silent_app sample_request
     = mkIO [GenerateContent (_build_prompt (text sample_request))]
         (raise (HTTPException 400) "Empty response received from Gemini AI").
Proof.
  split; [reflexivity|].
  destruct (extraction_failure_stops_pipeline silent_app sample_request)
    as [Hfail _].
  destruct (Hfail silent_ai sample_validator eq_refl eq_refl eq_refl)
    as (Hempty & _ & _ & Hstop).
  specialize (Hempty None eq_refl eq_refl).
  destruct (Hstop _ Hempty) as [Hrun _]. exact Hrun.
Defined.

Lemma blank_text_rejected_witness :
  all_space "   " = true
  /\ trace (post_validate sample_app "   ") = []
  /\ lifespan (Ok sample_ai) (Ok {[ "MV Neptune" ]}) = Ok sample_app.
Proof.
  split; [reflexivity|].
  destruct (blank_text_rejected sample_app "   " eq_refl) as [[Ht _] _].
  split; [exact Ht|reflexivity].
Defined.

Lemma bad_date_malformed : has_malformed_field bad_date_kwargs.
Proof.
  right; right; left. exists (PStr "01/11/2025").
  split; [reflexivity|]. simpl. eexists. reflexivity.
Qed.

Lemma ExtractedData_fail_closed_witness :
  has_malformed_field bad_date_kwargs
  /\ exists e, ExtractedData_init bad_date_kwargs = Raise e
               /\ exn_cls e = ValidationError.
Proof.
  split; [exact bad_date_malformed|].
  destruct (ExtractedData_fail_closed bad_date_kwargs) as [_ Hbad].
  destruct (Hbad bad_date_malformed) as [Hraise _]. exact Hraise.
Defined.

Lemma roundtrip_finite_witness :
  ExtractedData_init sample_kwargs = Ok sample_data
  /\ (forall f, insured_value sample_data = Some f -> isfinite f = true)
  /\ ExtractedData_init (model_dump_json sample_data) = Ok sample_data.
Proof.
  assert (forall f, insured_value sample_data = Some f -> isfinite f = true)
    as Hfin by (intros f [= <-]; reflexivity).
  split; [reflexivity|]. split; [exact Hfin|].
  exact (roundtrip_finite sample_kwargs sample_data eq_refl Hfin).
Defined.

(** C9, as stated, fails: the instance built from an insured value of
    plus infinity is written with [null] for the value and comes back
    without it. *)
Lemma roundtrip_fails_on_infinity :
  ExtractedData_init infinity_kwargs = Ok infinity_data
  /\ ExtractedData_init (model_dump_json infinity_data) = Ok no_value_data
  /\ ~ roundtrip_as_stated infinity_kwargs.
Proof.
  split; [reflexivity|]. split; [reflexivity|].
  intros Hclaim. specialize (Hclaim infinity_data eq_refl). discriminate Hclaim.
Qed.

(** C6, as stated, fails: the empty name lower-cases to a member of the
    approved set that holds the empty name, yet the rule answers FAIL
    with [Vessel name is missing.] *)
Lemma vessel_claim_as_stated_fails :
  (exists v, v ∈ valid_vessels empty_name_validator
             /\ Str.lower EmptyString = Str.lower v)
  /\ _validate_vessel_name empty_name_validator empty_name_data
     = Ok (mkValidationResult "Vessel Name Match" "FAIL"
             "Vessel name is missing.")
  /\ ~ vessel_claim_as_stated empty_name_validator empty_name_data.
Proof.
  assert (exists v, v ∈ valid_vessels empty_name_validator
                    /\ Str.lower EmptyString = Str.lower v) as Hin.
  { exists EmptyString. split; [|reflexivity].
    unfold empty_name_validator. simpl. set_solver. }
  split; [exact Hin|]. split; [reflexivity|].
  intros (r & Hr & Hiff & _). cbn in Hr. injection Hr as <-. simpl in Hiff.
  assert (@eq string "FAIL" "PASS") as Hc; [|discriminate Hc].
  apply Hiff. exact Hin.
Qed.

Lemma extract_fields_raises_only_ValueError_witness :
  outcome (extract_fields silent_ai "text")
  = raise ValueError "Empty response received from Gemini AI"
  /\ is_ValueError (Exn ValueError "Empty response received from Gemini AI")
     = true.
Proof.
  split; [reflexivity|].
  exact (extract_fields_raises_only_ValueError silent_ai "text" _ eq_refl).
Defined.

Lemma pipeline_succeeds_when_extraction_succeeds_witness :
  all_space (text sample_request) = false
  /\ outcome (extract_fields sample_ai (text sample_request)) = Ok sample_data
  /\ exists results,
      outcome (validate_document sample_app sample_request)
      = Ok (mkValidationResponse sample_data results).
Proof.
  assert (outcome (extract_fields sample_ai (text sample_request))
          = Ok sample_data) as Hex by (vm_compute; reflexivity).
  split; [reflexivity|]. split; [exact Hex|].
  destruct (pipeline_succeeds_when_extraction_succeeds sample_app sample_ai
              sample_validator sample_request sample_data
              eq_refl eq_refl eq_refl Hex)
    as (r1 & r2 & r3 & r4 & _ & Hrun).
  exists [r1; r2; r3; r4]. rewrite Hrun. reflexivity.
Defined.

Lemma sample_dates_calendar :
  Datetime.calendar_date (Datetime.mkdatetime 2025 11 1)
  /\ Datetime.calendar_date (Datetime.mkdatetime 2026 10 31).
Proof. repeat split; cbv; discriminate. Qed.

Lemma date_rule_on_calendar_dates_witness :
  Datetime.calendar_date (Datetime.mkdatetime 2025 11 1)
  /\ Datetime.calendar_date (Datetime.mkdatetime 2026 10 31)
  /\ exists r, _validate_date_consistency sample_validator sample_data = Ok r
               /\ rule r = "Date Consistency".
Proof.
  destruct sample_dates_calendar as [Cs Ce].
  split; [exact Cs|]. split; [exact Ce|].
  destruct (date_rule_on_calendar_dates sample_validator sample_data
              (Datetime.mkdatetime 2025 11 1) (Datetime.mkdatetime 2026 10 31)
              Cs Ce eq_refl eq_refl) as (r & Hr & Hrule & _).
  exists r. auto.
Defined.

Lemma validate_date_format_accepts_iso_witness :
  Datetime.calendar_date (Datetime.mkdatetime 2025 11 1)
  /\ validate_date_format (Some "2025-11-01") = Ok (Some "2025-11-01").
Proof.
  destruct sample_dates_calendar as [Cs _]. split; [exact Cs|].
  exact (validate_date_format_accepts_iso (Datetime.mkdatetime 2025 11 1) Cs).
Defined.

Lemma date_rule_swap_witness :
  _validate_date_consistency sample_validator sample_data
  = Ok (mkValidationResult "Date Consistency" "PASS"
          "Policy end date is after start date.")
  /\ exists r',
      _validate_date_consistency sample_validator swapped_data = Ok r'
      /\ status r' = "FAIL".
Proof.
  split; [reflexivity|].
  exact (date_rule_swap sample_validator sample_data swapped_data _
           eq_refl eq_refl eq_refl eq_refl).
Defined.

Lemma vessel_rule_case_insensitive_witness :
  Str.lower "MV Neptune" = Str.lower "mv NEPTUNE"
  /\ exists r r',
      _validate_vessel_name sample_validator sample_data = Ok r
      /\ _validate_vessel_name sample_validator recased_data = Ok r'
      /\ status r = status r'.
Proof.
  split; [reflexivity|].
  exact (vessel_rule_case_insensitive sample_validator sample_validator
           sample_data recased_data _ _ eq_refl eq_refl eq_refl eq_refl).
Defined.

Lemma silent_app_initialised : initialised silent_app.
Proof. exists silent_ai, sample_validator. auto. Defined.

Lemma route_errors_are_client_errors_witness :
  initialised silent_app
  /\ outcome (post_validate silent_app "text")
     = raise (HTTPException 400) "Empty response received from Gemini AI"
  /\ ("text" = EmptyString ->
      exn_cls (Exn (HTTPException 400)
                 "Empty response received from Gemini AI")
      = HTTPException 422)
  /\ ("text" <> EmptyString ->
      exn_cls (Exn (HTTPException 400)
                 "Empty response received from Gemini AI")
      = HTTPException 400).
Proof.
  split; [exact silent_app_initialised|]. split; [reflexivity|].
  exact (route_errors_are_client_errors silent_app "text" _
           silent_app_initialised eq_refl).
Defined.

Lemma approved_vessels_come_from_file_witness :
  @startup vessels_runtime sample_genai sample_fs = Ok started_app
  /\ exists ai v content items,
      AIExtractor_init sample_genai = Ok ai
      /\ read_text sample_fs "valid_vessels.json" = Ok content
      /\ @json_loads vessels_runtime content = Ok (PList items)
      /\ ai_extractor started_app = Some ai
      /\ validator started_app = Some v
      /\ (forall s, s ∈ valid_vessels v <-> PStr s ∈ items)
      /\ (forall data n,
             vessel_name data = Some n -> n <> EmptyString ->
             exists r,
               _validate_vessel_name v data = Ok r
               /\ (status r = "PASS"
                   <-> exists s, PStr s ∈ items
                                 /\ Str.lower n = Str.lower s)).
Proof.
  split; [reflexivity|].
  exact (@approved_vessels_come_from_file vessels_runtime sample_genai
           sample_fs started_app eq_refl).
Defined.

Lemma sanitize_text_fixed_points_witness :
  0 <= 12
  /\ sanitize_text (sanitize_text "  MV Neptune  " 12) 12
     = sanitize_text "  MV Neptune  " 12
  /\ (sanitize_text "  MV Neptune  " 12 = "  MV Neptune  "
      <-> all_chars kept_char "  MV Neptune  " = true
          /\ Str.strip "  MV Neptune  " = "  MV Neptune  "
          /\ Str.len "  MV Neptune  " <= 12).
Proof.
  split; [lia|].
  apply (sanitize_text_fixed_points "  MV Neptune  " 12). lia.
Defined.
